(** * androidbinary: the resource table (table.go)

    A shallow embedding of the resource-table decoder and resolver of
    [table.go]: the configuration record with its comparison methods
    ([Match], [IsMoreSpecificThan], [IsBetterThan]), the resolver
    ([findPackage], [findType], [GetResource]) and the chunk walk of the
    decoder ([NewTableFile], [readChunk], [readTablePackage],
    [readTableType], [readTableTypeSpec]).

    Conventions.  Go's fixed-width unsigned integers are values of [Z];
    where the source can wrap around (uint32 additions and subtractions)
    the reduction modulo [2^32] is written out.  A Go pointer that can be
    nil is an [option]; dereferencing nil is the outcome [Panic]. *)

From Stdlib Require Import ZArith List Bool Lia.
From Stdlib.Strings Require Import String Byte.
From stdpp Require Import base option list gmap.
Import ListNotations.

Local Open Scope Z_scope.

(** ** Early returns

    A block of Go statements that may [return] a value or fall through
    to the next statement is an [option]: [Some v] is "returned v",
    [None] is "fell through". *)

Definition ret_if {A} (cond : bool) (v : A) : option A :=
  if cond then Some v else None.

Definition when {A} (cond : bool) (body : option A) : option A :=
  if cond then body else None.

Definition seq_ret {A} (s1 s2 : option A) : option A :=
  match s1 with
  | Some v => Some v
  | None => s2
  end.

Definition or_return {A} (s : option A) (last : A) : A :=
  match s with
  | Some v => v
  | None => last
  end.

Declare Scope go_scope.
Delimit Scope go_scope with go.
Notation "s1 ;; s2" := (seq_ret s1 s2)
  (at level 100, s2 at level 200, right associativity) : go_scope.
Notation "x != y" := (negb (Z.eqb x y)) (at level 70, no associativity) : go_scope.
Notation "x == y" := (Z.eqb x y) (at level 70, no associativity) : go_scope.

(** ** ResTableConfig *)

(** [Language] and [Country] are [[2]uint8]: the pair holds the elements
    at index 0 and 1. *)
Record ResTableConfig := mkResTableConfig {
  Config_Size : Z;
  (* imsi *)
  Mcc : Z;
  Mnc : Z;
  (* locale *)
  Language : Z * Z;
  Country : Z * Z;
  (* screen type *)
  Orientation : Z;
  Touchscreen : Z;
  Density : Z;
  (* input *)
  Keyboard : Z;
  Navigation : Z;
  InputFlags : Z;
  InputPad0 : Z;
  (* screen *)
  ScreenWidth : Z;
  ScreenHeight : Z;
  (* version *)
  SDKVersion : Z;
  MinorVersion : Z;
  (* screen config *)
  ScreenLayout : Z;
  UIMode : Z;
  ScreenConfigPad1 : Z;
  ScreenConfigPad2 : Z
}.

(** The zero value of the struct: every axis unspecified. *)
Definition zeroConfig : ResTableConfig :=
  mkResTableConfig 0 0 0 (0, 0) (0, 0) 0 0 0 0 0 0 0 0 0 0 0 0 0 0 0.

Section Comparison.
Local Open Scope go_scope.

(** [func (c *ResTableConfig) IsMoreSpecificThan(o *ResTableConfig) bool] *)
Definition IsMoreSpecificThan (c o : ResTableConfig) : bool :=
  or_return (
    (* imsi *)
    when (Mcc c != Mcc o)
      (ret_if (Mcc c != 0) false ;; ret_if (Mnc o != 0) true) ;;
    when (Mnc c != Mnc o)
      (ret_if (Mnc c != 0) false ;; ret_if (Mnc o != 0) true) ;;
    (* locale *)
    when (fst (Language c) != fst (Language o))
      (ret_if (fst (Language c) != 0) false ;;
       ret_if (fst (Language o) != 0) true) ;;
    when (fst (Country c) != fst (Country o))
      (ret_if (fst (Country c) != 0) false ;;
       ret_if (fst (Country o) != 0) true) ;;
    (* orientation *)
    when (Orientation c != Orientation o)
      (ret_if (Orientation c != 0) false ;;
       ret_if (Orientation o != 0) true) ;;
    (* touchscreen *)
    when (Touchscreen c != Touchscreen o)
      (ret_if (Touchscreen c != 0) false ;;
       ret_if (Touchscreen o != 0) true) ;;
    (* screen size *)
    when (ScreenWidth c != ScreenWidth o)
      (ret_if (ScreenWidth c != 0) false ;;
       ret_if (ScreenWidth o != 0) true) ;;
    when (ScreenHeight c != ScreenHeight o)
      (ret_if (ScreenHeight c != 0) false ;;
       ret_if (ScreenHeight o != 0) true) ;;
    (* version *)
    when (SDKVersion c != SDKVersion o)
      (ret_if (SDKVersion c != 0) false ;;
       ret_if (SDKVersion o != 0) true) ;;
    when (MinorVersion c != MinorVersion o)
      (ret_if (MinorVersion c != 0) false ;;
       ret_if (MinorVersion o != 0) true)
  ) false.

(** [func (c *ResTableConfig) IsBetterThan(o *ResTableConfig, r *ResTableConfig) bool].
    The reference [r] may be nil. *)
Definition IsBetterThan (c o : ResTableConfig) (r : option ResTableConfig) : bool :=
  match r with
  | None => IsMoreSpecificThan c o
  | Some r =>
    or_return (
      (* imsi *)
      when ((Mcc c != 0) || (Mnc c != 0) || (Mcc o != 0) || (Mnc o != 0))
        (ret_if ((Mcc c != Mcc o) && (Mcc r != 0)) (Mcc c != 0) ;;
         ret_if ((Mnc c != Mnc o) && (Mnc r != 0)) (Mnc c != 0)) ;;
      (* locale *)
      when ((fst (Language c) != 0) || (fst (Country c) != 0)
            || (fst (Language o) != 0) || (fst (Country o) != 0))
        (ret_if ((fst (Language c) != fst (Language o)) && (fst (Language r) != 0))
                (fst (Language c) != 0) ;;
         ret_if ((fst (Country c) != fst (Country o)) && (fst (Country r) != 0))
                (fst (Country c) != 0)) ;;
      (* orientation *)
      ret_if ((Orientation c != Orientation o) || (Orientation r != 0))
             (Orientation c != 0) ;;
      (* screen size *)
      when ((ScreenWidth c != 0) || (ScreenHeight c != 0)
            || (ScreenWidth o != 0) || (ScreenHeight o != 0))
        (ret_if ((ScreenWidth c != ScreenWidth o) && (ScreenWidth r != 0))
                (ScreenWidth c != 0) ;;
         ret_if ((ScreenHeight c != ScreenHeight o) && (ScreenHeight r != 0))
                (ScreenHeight c != 0)) ;;
      (* version *)
      when ((SDKVersion c != 0) || (SDKVersion c != 0)
            || (MinorVersion o != 0) || (MinorVersion o != 0))
        (ret_if ((SDKVersion c != SDKVersion o) && (SDKVersion r != 0))
                (SDKVersion c >? SDKVersion o) ;;
         ret_if (MinorVersion c != MinorVersion o) (MinorVersion c != 0))
    ) false
  end.

(** [func (c *ResTableConfig) Match(settings *ResTableConfig) bool] *)
Definition Match (c settings : ResTableConfig) : bool :=
  or_return (
    (* match imsi *)
    (if Mcc settings == 0
     then ret_if (Mcc c != 0) false
     else ret_if ((Mcc c != 0) && (Mcc c != Mcc settings)) false) ;;
    (if Mnc settings == 0
     then ret_if (Mnc c != 0) false
     else ret_if ((Mnc c != 0) && (Mnc c != Mnc settings)) false) ;;
    (* match locale *)
    ret_if ((fst (Language settings) != 0) && (fst (Language c) != 0)
            && negb ((fst (Language settings) == fst (Language c))
                     && (snd (Language settings) == snd (Language c))))
           false ;;
    ret_if ((fst (Country settings) != 0) && (fst (Country c) != 0)
            && negb ((fst (Country settings) == fst (Country c))
                     && (snd (Country settings) == snd (Country c))))
           false ;;
    (* screen size *)
    ret_if ((ScreenWidth settings != 0) && (ScreenWidth c != 0)
            && (ScreenWidth c != ScreenWidth settings)) false ;;
    ret_if ((ScreenHeight settings != 0) && (ScreenHeight c != 0)
            && (ScreenHeight c != ScreenHeight settings)) false ;;
    (* version *)
    ret_if ((SDKVersion settings != 0) && (SDKVersion c != 0)
            && (SDKVersion c >? SDKVersion settings)) false ;;
    ret_if ((MinorVersion settings != 0) && (MinorVersion c != 0)
            && (MinorVersion c != MinorVersion settings)) false
  ) true.

End Comparison.

(** Configurations that specify a single axis, for the examples below. *)
Definition withOrientation (v : Z) : ResTableConfig :=
  mkResTableConfig 0 0 0 (0, 0) (0, 0) v 0 0 0 0 0 0 0 0 0 0 0 0 0 0.
Definition withMcc (v : Z) : ResTableConfig :=
  mkResTableConfig 0 v 0 (0, 0) (0, 0) 0 0 0 0 0 0 0 0 0 0 0 0 0 0 0.
Definition withLanguage (a b : Z) : ResTableConfig :=
  mkResTableConfig 0 0 0 (a, b) (0, 0) 0 0 0 0 0 0 0 0 0 0 0 0 0 0 0.
Definition withSDKVersion (v : Z) : ResTableConfig :=
  mkResTableConfig 0 0 0 (0, 0) (0, 0) 0 0 0 0 0 0 0 0 0 v 0 0 0 0 0.
Definition withMinorVersion (v : Z) : ResTableConfig :=
  mkResTableConfig 0 0 0 (0, 0) (0, 0) 0 0 0 0 0 0 0 0 0 0 v 0 0 0 0.


(** ** Outcomes of a call

    A Go function of this file either returns, or panics (a nil pointer
    dereference, an index out of range).  A function with an [error]
    result returns either a value with a nil error ([Ok]) or a non-nil
    error ([Err]). *)

Inductive error :=
| EOF                       (* io.EOF *)
| ErrUnexpectedEOF          (* io.ErrUnexpectedEOF *)
| ErrOther (msg : string).  (* any other error value *)

Inductive result (A : Type) :=
| Ok (a : A)
| Err (e : error)
| Panic.
Arguments Ok {A} a.
Arguments Err {A} e.
Arguments Panic {A}.

#[global] Instance result_ret : MRet result := fun A a => Ok a.
#[global] Instance result_bind : MBind result := fun A B f m =>
  match m with
  | Ok a => f a
  | Err e => Err e
  | Panic => Panic
  end.

(** ** Byte sources: io.ReaderAt, io.SectionReader, binary.Read

    The byte source is Go's [io.ReaderAt].  [ReadAt(p, off)] is modelled
    by the bytes it delivers for a buffer of [n] bytes; by the contract
    of [io.ReaderAt] fewer than [n] bytes come with a non-nil error. *)

Definition ReaderAt := Z -> nat -> list byte.

(** A read-only span of bytes held in memory ([bytes.Reader]). *)
Definition bytesReaderAt (s : list byte) : ReaderAt := fun off n =>
  if (off <? 0) || (Z.of_nat (length s) <=? off) then []
  else take n (drop (Z.to_nat off) s).

Definition maxint64 : Z := 2 ^ 63 - 1.

Record SectionReader := mkSectionReader {
  sr_r : ReaderAt;
  sr_base : Z;
  sr_off : Z;
  sr_limit : Z
}.

(** [io.NewSectionReader(r, off, n)] *)
Definition NewSectionReader (r : ReaderAt) (off n : Z) : SectionReader :=
  let remaining := if off <=? maxint64 - n then n + off else maxint64 in
  mkSectionReader r off off remaining.

(** [SectionReader.ReadAt]: a section reader is itself an [io.ReaderAt]. *)
Definition SectionReader_ReadAt (s : SectionReader) : ReaderAt := fun off n =>
  if (off <? 0) || (sr_limit s - sr_base s <=? off) then []
  else
    let off' := off + sr_base s in
    let max := sr_limit s - off' in
    if max <? Z.of_nat n then sr_r s off' (Z.to_nat max)
    else sr_r s off' n.

(** [SectionReader.Seek(offset, os.SEEK_SET)]; the source ignores the
    error of a seek before the start, which leaves the position as it was. *)
Definition Seek (s : SectionReader) (offset : Z) : SectionReader :=
  let offset' := offset + sr_base s in
  if offset' <? sr_base s then s
  else mkSectionReader (sr_r s) (sr_base s) offset' (sr_limit s).

(** [SectionReader.Read] on a buffer of [n] bytes: the bytes read and
    the reader with its position advanced. *)
Definition SectionReader_Read (s : SectionReader) (n : nat)
  : list byte * SectionReader :=
  if sr_limit s <=? sr_off s then ([], s)
  else
    let max := sr_limit s - sr_off s in
    let n' := if max <? Z.of_nat n then Z.to_nat max else n in
    let bs := sr_r s (sr_off s) n' in
    (bs, mkSectionReader (sr_r s) (sr_base s)
           (sr_off s + Z.of_nat (length bs)) (sr_limit s)).

(** [binary.Read(sr, binary.LittleEndian, data)] for data of [n] bytes,
    up to the decoding of the bytes: [io.ReadFull] either fills the buffer
    or fails with [io.EOF] (nothing read) or [io.ErrUnexpectedEOF]; the
    position advances by what was read either way.  A buffer of no bytes
    is filled without a read. *)
Definition binaryRead (s : SectionReader) (n : nat)
  : result (list byte) * SectionReader :=
  match n with
  | O => (Ok [], s)
  | _ =>
    let '(bs, s') := SectionReader_Read s n in
    if Nat.eqb (length bs) n then (Ok bs, s')
    else match bs with
         | [] => (Err EOF, s')
         | _ => (Err ErrUnexpectedEOF, s')
         end
  end.

(** Little-endian fields of a buffer ([binary.LittleEndian]). *)
Definition u8 (bs : list byte) (i : nat) : Z :=
  match bs !! i with
  | Some b => Z.of_N (Byte.to_N b)
  | None => 0
  end.

Definition u16 (bs : list byte) (i : nat) : Z :=
  Z.lor (u8 bs i) (Z.shiftl (u8 bs (i + 1)) 8).

Definition u32 (bs : list byte) (i : nat) : Z :=
  Z.lor (Z.lor (u8 bs i) (Z.shiftl (u8 bs (i + 1)) 8))
        (Z.lor (Z.shiftl (u8 bs (i + 2)) 16) (Z.shiftl (u8 bs (i + 3)) 24)).

(** A buffer read as [[]uint32] of [n] elements. *)
Definition u32s (bs : list byte) (n : nat) : list Z :=
  map (fun k => u32 bs (4 * k)) (seq 0 n).

Definition uint32 (z : Z) : Z := z mod 2 ^ 32.

(** ** The records of the table *)

(** Modelled from the spec: [ResChunkHeader] is declared outside
    table.go; section 6 gives its layout, a 16-bit type tag, a 16-bit
    header size and a 32-bit total chunk size. *)
Record ResChunkHeader := mkResChunkHeader {
  Chunk_Type : Z;
  Chunk_HeaderSize : Z;
  Chunk_Size : Z
}.

(** Modelled from the spec: [ResValue] is declared outside table.go;
    section 6 gives its layout, a 16-bit size, an 8-bit reserved field,
    an 8-bit type tag and a 32-bit payload. *)
Record ResValue := mkResValue {
  Value_Size : Z;
  Value_Res0 : Z;
  DataType : Z;
  Data : Z
}.

Record ResTableHeader := mkResTableHeader {
  TableHeader_Header : ResChunkHeader;
  PackageCount : Z
}.

Record ResTablePackage := mkResTablePackage {
  Package_Header : ResChunkHeader;
  Package_Id : Z;
  Package_Name : list Z;
  Package_TypeStrings : Z;
  LastPublicType : Z;
  Package_KeyStrings : Z;
  LastPublicKey : Z
}.

Record ResTableType := mkResTableType {
  Type_Header : ResChunkHeader;
  Type_Id : Z;
  Type_Res0 : Z;
  Type_Res1 : Z;
  Type_EntryCount : Z;
  EntriesStart : Z;
  Config : ResTableConfig
}.

(** [Entry_Key] is a [ResStringPoolRef], a 32-bit string-pool index. *)
Record ResTableEntry := mkResTableEntry {
  Entry_Size : Z;
  Entry_Flags : Z;
  Entry_Key : Z
}.

(** [Key] and [Value] are pointers: [None] is nil. *)
Record TableEntry := mkTableEntry {
  Key : option ResTableEntry;
  Value : option ResValue;
  Flags : Z
}.

(** [Header] is the pointer [readTableType] allocates, never nil. *)
Record TableType := mkTableType {
  Header : ResTableType;
  Entries : list TableEntry
}.

Record ResTableTypeSpec := mkResTableTypeSpec {
  Spec_Header : ResChunkHeader;
  Spec_Id : Z;
  Spec_Res0 : Z;
  Spec_Res1 : Z;
  Spec_EntryCount : Z
}.

(** The zero values [make] and [new] allocate. *)
Definition zeroChunkHeader : ResChunkHeader := mkResChunkHeader 0 0 0.
Definition zeroTableEntry : TableEntry := mkTableEntry None None 0.
Definition zeroResTableEntry : ResTableEntry := mkResTableEntry 0 0 0.
Definition zeroResValue : ResValue := mkResValue 0 0 0 0.

(** ** What table.go takes from the rest of the package

    The string pool ([ResStringPool], [readStringPool], its [GetString])
    and the chunk and value type tags are declared in other files of the
    package: they are parameters of the development.  [pool_GetString]
    takes the pointer receiver ([None] is nil) and answers [None] when
    the lookup panics. *)
Class Common := {
  ResStringPool : Type;
  readStringPool : SectionReader -> result ResStringPool;
  pool_GetString : option ResStringPool -> Z -> option string;
  RES_STRING_POOL_TYPE : Z;
  RES_TABLE_PACKAGE_TYPE : Z;
  RES_TABLE_TYPE_TYPE : Z;
  RES_TABLE_TYPE_SPEC_TYPE : Z;
  TYPE_NULL : Z;
  TYPE_STRING : Z;
  TYPE_INT_DEC : Z;
  TYPE_INT_HEX : Z;
  TYPE_INT_BOOLEAN : Z
}.

Section Table.
Context `{Common}.
Local Open Scope go_scope.

Record TablePackage := mkTablePackage {
  TP_Header : ResTablePackage;
  TypeStrings : option ResStringPool;
  KeyStrings : option ResStringPool;
  TableTypes : list TableType
}.

(** [tablePackages] is [map[uint32]*TablePackage]; [readChunk] stores
    only pointers it has dereferenced, so no stored value is nil. *)
Record TableFile := mkTableFile {
  stringPool : option ResStringPool;
  tablePackages : gmap Z TablePackage
}.

(** ** Resource ids

    [ResId] is a [uint32]; Go's [int] is taken to be 64 bits wide, so
    [int(id)] is the same non-negative number. *)

Definition ResId := Z.

(** [int(id) >> 24] *)
Definition ResId_Package (id : ResId) : Z := Z.shiftr id 24.

(** [(int(id) >> 16) & 0xFF] *)
Definition ResId_Type (id : ResId) : Z := Z.land (Z.shiftr id 16) 0xFF.

(** [int(id) & 0xFFFF] *)
Definition ResId_Entry (id : ResId) : Z := Z.land id 0xFFFF.

(** ** The resolver *)

(** [func (f *TableFile) findPackage(id int) *TablePackage]: a map
    lookup, nil for an absent key. *)
Definition findPackage (f : TableFile) (id : Z) : option TablePackage :=
  tablePackages f !! uint32 id.

(** The loop of [findType] over [p.TableTypes], [best] being the
    variable of that name.  [config] is a pointer: [Match] dereferences
    it, which panics on nil. *)
Fixpoint findType_loop (id : Z) (config : option ResTableConfig)
    (ts : list TableType) (best : option TableType)
  : result (option TableType) :=
  match ts with
  | [] => Ok best
  | t :: ts' =>
    if Type_Id (Header t) != id then findType_loop id config ts' best
    else
      match config with
      | None => Panic
      | Some settings =>
        if negb (Match (Config (Header t)) settings)
        then findType_loop id config ts' best
        else
          match best with
          | None => findType_loop id config ts' (Some t)
          | Some b =>
            if IsBetterThan (Config (Header t)) (Config (Header b)) config
            then findType_loop id config ts' (Some t)
            else findType_loop id config ts' best
          end
      end
  end.

(** [func (p *TablePackage) findType(id int, config *ResTableConfig) *TableType].
    The receiver may be nil; [p.TableTypes] then panics. *)
Definition findType (p : option TablePackage) (id : Z)
    (config : option ResTableConfig) : result (option TableType) :=
  match p with
  | None => Panic
  | Some p => findType_loop id config (TableTypes p) None
  end.

(** [func (f *TableFile) GetString(ref ResStringPoolRef) string];
    [None] when the pool's lookup panics. *)
Definition GetString (f : TableFile) (ref : Z) : option string :=
  pool_GetString (stringPool f) ref.

(** The dynamic values [GetResource] returns as [interface{}]. *)
Inductive value :=
| VNil
| VString (s : string)
| VUint32 (v : Z)
| VBool (b : bool).

(** [func (f *TableFile) GetResource(id ResId, config *ResTableConfig) (interface{}, error)].
    [Ok (v, e)] is a return of the pair, [e = None] being the nil error. *)
Definition GetResource (f : TableFile) (id : ResId)
    (config : option ResTableConfig) : result (value * option error) :=
  let p := findPackage f (ResId_Package id) in
  t ← findType p (ResId_Type id) config;
  match t with
  | None => Panic                                (* t.Entries on nil *)
  | Some t =>
    match Entries t !! Z.to_nat (ResId_Entry id) with
    | None => Panic                              (* index out of range *)
    | Some e =>
      match Value e with
      | None => Panic                            (* v.DataType on nil *)
      | Some v =>
        if DataType v == TYPE_NULL then Ok (VNil, None)
        else if DataType v == TYPE_STRING then
          match GetString f (Data v) with
          | Some s => Ok (VString s, None)
          | None => Panic
          end
        else if DataType v == TYPE_INT_DEC then Ok (VUint32 (Data v), None)
        else if DataType v == TYPE_INT_HEX then Ok (VUint32 (Data v), None)
        else if DataType v == TYPE_INT_BOOLEAN then Ok (VBool (Data v != 0), None)
        else Ok (VUint32 (Data v), None)
      end
    end
  end.

(** ** The decoder *)

Definition decodeChunkHeader (bs : list byte) (i : nat) : ResChunkHeader :=
  mkResChunkHeader (u16 bs i) (u16 bs (i + 2)) (u32 bs (i + 4)).

Definition decodeConfig (bs : list byte) (i : nat) : ResTableConfig :=
  mkResTableConfig
    (u32 bs i)
    (u16 bs (i + 4)) (u16 bs (i + 6))
    (u8 bs (i + 8), u8 bs (i + 9)) (u8 bs (i + 10), u8 bs (i + 11))
    (u8 bs (i + 12)) (u8 bs (i + 13)) (u16 bs (i + 14))
    (u8 bs (i + 16)) (u8 bs (i + 17)) (u8 bs (i + 18)) (u8 bs (i + 19))
    (u16 bs (i + 20)) (u16 bs (i + 22))
    (u16 bs (i + 24)) (u16 bs (i + 26))
    (u8 bs (i + 28)) (u8 bs (i + 29)) (u8 bs (i + 30)) (u8 bs (i + 31)).

Definition sizeof_ResChunkHeader : nat := 8.
Definition sizeof_ResTableHeader : nat := 12.
Definition sizeof_ResTablePackage : nat := 284.
Definition sizeof_ResTableType : nat := 52.
Definition sizeof_ResTableTypeSpec : nat := 16.
Definition sizeof_ResTableEntry : nat := 8.
Definition sizeof_ResValue : nat := 8.

Definition decodeResTableHeader (bs : list byte) : ResTableHeader :=
  mkResTableHeader (decodeChunkHeader bs 0) (u32 bs 8).

Definition decodeResTablePackage (bs : list byte) : ResTablePackage :=
  mkResTablePackage (decodeChunkHeader bs 0) (u32 bs 8)
    (map (fun k => u16 bs (12 + 2 * k)) (seq 0 128))
    (u32 bs 268) (u32 bs 272) (u32 bs 276) (u32 bs 280).

Definition decodeResTableType (bs : list byte) : ResTableType :=
  mkResTableType (decodeChunkHeader bs 0) (u8 bs 8) (u8 bs 9) (u16 bs 10)
    (u32 bs 12) (u32 bs 16) (decodeConfig bs 20).

Definition decodeResTableTypeSpec (bs : list byte) : ResTableTypeSpec :=
  mkResTableTypeSpec (decodeChunkHeader bs 0) (u8 bs 8) (u8 bs 9)
    (u16 bs 10) (u32 bs 12).

Definition decodeResTableEntry (bs : list byte) : ResTableEntry :=
  mkResTableEntry (u16 bs 0) (u16 bs 2) (u32 bs 4).

Definition decodeResValue (bs : list byte) : ResValue :=
  mkResValue (u16 bs 0) (u8 bs 2) (u8 bs 3) (u32 bs 4).

(** The loop of [readTableType] over [entryIndexes]: [i] is the loop
    index, [entries] the slice allocated by [make].  The two reads of a
    slot ignore their errors; a failed read leaves the zero value in
    [key] or [val]. *)
Fixpoint readEntries (header : ResTableType) (sr : SectionReader)
    (i : nat) (entryIndexes : list Z) (entries : list TableEntry)
  : list TableEntry * SectionReader :=
  match entryIndexes with
  | [] => (entries, sr)
  | index :: rest =>
    if index == 0xFFFFFFFF then readEntries header sr (S i) rest entries
    else
      let sr := Seek sr (uint32 (EntriesStart header + index)) in
      let '(rk, sr) := binaryRead sr sizeof_ResTableEntry in
      let key := match rk with
                 | Ok bs => decodeResTableEntry bs
                 | _ => zeroResTableEntry
                 end in
      let entries :=
        alter (fun e => mkTableEntry (Some key) (Value e) (Flags e)) i entries in
      let '(rv, sr) := binaryRead sr sizeof_ResValue in
      let val := match rv with
                 | Ok bs => decodeResValue bs
                 | _ => zeroResValue
                 end in
      let entries :=
        alter (fun e => mkTableEntry (Key e) (Some val) (Flags e)) i entries in
      readEntries header sr (S i) rest entries
  end.

(** The header of a type chunk and its entry index table, the first two
    reads of [readTableType]. *)
Definition readTypeHeader (sr : SectionReader)
  : result (ResTableType * list Z * SectionReader) :=
  let '(r, sr) := binaryRead sr sizeof_ResTableType in
  bs ← r;
  let header := decodeResTableType bs in
  let n := Z.to_nat (Type_EntryCount header) in
  let sr := Seek sr (Chunk_HeaderSize (Type_Header header)) in
  let '(r, sr) := binaryRead sr (4 * n) in
  bs ← r;
  Ok (header, u32s bs n, sr).

(** [func readTableType(sr *io.SectionReader) ( *TableType, error)] *)
Definition readTableType (sr : SectionReader) : result TableType :=
  '(header, entryIndexes, sr) ← readTypeHeader sr;
  let entries := replicate (Z.to_nat (Type_EntryCount header)) zeroTableEntry in
  let '(entries, _) := readEntries header sr 0 entryIndexes entries in
  Ok (mkTableType header entries).

(** [func readTableTypeSpec(sr *io.SectionReader) ([]uint32, error)] *)
Definition readTableTypeSpec (sr : SectionReader) : result (list Z) :=
  let '(r, sr) := binaryRead sr sizeof_ResTableTypeSpec in
  bs ← r;
  let header := decodeResTableTypeSpec bs in
  let n := Z.to_nat (Spec_EntryCount header) in
  let sr := Seek sr (Chunk_HeaderSize (Spec_Header header)) in
  let '(r, sr) := binaryRead sr (4 * n) in
  bs ← r;
  Ok (u32s bs n).

(** One chunk of a package, the body of the loop of [readTablePackage]
    after the chunk header is read: the types collected so far, with the
    new one appended for a type chunk. *)
Definition readPackageChunk (chunkHeader : ResChunkHeader)
    (chunkReader : SectionReader) (types : list TableType)
  : result (list TableType) :=
  if Chunk_Type chunkHeader == RES_TABLE_TYPE_TYPE then
    tableType ← readTableType chunkReader; Ok (types ++ [tableType])
  else if Chunk_Type chunkHeader == RES_TABLE_TYPE_SPEC_TYPE then
    _ ← readTableTypeSpec chunkReader; Ok types
  else Ok types.

(** The loop of [readTablePackage]; [size] is [header.Header.Size].
    [None]: the loop has not finished within [fuel] iterations. *)
Fixpoint readTablePackage_loop (fuel : nat) (sr : SectionReader)
    (size offset : Z) (types : list TableType)
  : option (result (list TableType)) :=
  if offset <? size then
    match fuel with
    | O => None
    | S fuel' =>
      let sr := Seek sr offset in
      let '(r, sr) := binaryRead sr sizeof_ResChunkHeader in
      match r with
      | Err e => Some (Err e)
      | Panic => Some Panic
      | Ok bs =>
        let chunkHeader := decodeChunkHeader bs 0 in
        let chunkReader :=
          NewSectionReader (SectionReader_ReadAt sr) offset
                           (Chunk_Size chunkHeader) in
        let sr := Seek sr offset in
        match readPackageChunk chunkHeader chunkReader types with
        | Err e => Some (Err e)
        | Panic => Some Panic
        | Ok types' =>
          readTablePackage_loop fuel' sr size
            (offset + Chunk_Size chunkHeader) types'
        end
      end
    end
  else Some (Ok types).

(** [func readTablePackage(sr *io.SectionReader) ( *TablePackage, error)] *)
Definition readTablePackage (fuel : nat) (sr : SectionReader)
  : option (result TablePackage) :=
  let '(r, sr) := binaryRead sr sizeof_ResTablePackage in
  match r with
  | Err e => Some (Err e)
  | Panic => Some Panic
  | Ok bs =>
    let header := decodeResTablePackage bs in
    let size := Chunk_Size (Package_Header header) in
    let srTypes :=
      NewSectionReader (SectionReader_ReadAt sr) (Package_TypeStrings header)
                       (uint32 (size - Package_TypeStrings header)) in
    match readStringPool srTypes with
    | Err e => Some (Err e)
    | Panic => Some Panic
    | Ok typeStrings =>
      let srKeys :=
        NewSectionReader (SectionReader_ReadAt sr) (Package_KeyStrings header)
                         (uint32 (size - Package_KeyStrings header)) in
      match readStringPool srKeys with
      | Err e => Some (Err e)
      | Panic => Some Panic
      | Ok keyStrings =>
        match readTablePackage_loop fuel sr size
                (Chunk_HeaderSize (Package_Header header)) [] with
        | None => None
        | Some r =>
          Some (types ← r;
                Ok (mkTablePackage header (Some typeStrings)
                                   (Some keyStrings) types))
        end
      end
    end
  end.

(** [func (f *TableFile) readChunk(r io.ReaderAt, offset int64) ( *ResChunkHeader, error)].
    The table [f] is updated in place: the result carries it.  A package
    that fails to decode is a nil pointer whose [Header.Id] is read
    before the error is looked at: a panic.  [fuel] bounds the walk of a
    package chunk. *)
Definition readChunk (fuel : nat) (f : TableFile) (r : ReaderAt) (offset : Z)
  : option (result (TableFile * ResChunkHeader)) :=
  let sr := NewSectionReader r offset (maxint64 - offset) in
  let sr := Seek sr 0 in
  let '(rd, sr) := binaryRead sr sizeof_ResChunkHeader in
  match rd with
  | Err e => Some (Err e)
  | Panic => Some Panic
  | Ok bs =>
    let chunkHeader := decodeChunkHeader bs 0 in
    let sr := Seek sr 0 in
    if Chunk_Type chunkHeader == RES_STRING_POOL_TYPE then
      match readStringPool sr with
      | Ok pool =>
        Some (Ok (mkTableFile (Some pool) (tablePackages f), chunkHeader))
      | Err e => Some (Err e)
      | Panic => Some Panic
      end
    else if Chunk_Type chunkHeader == RES_TABLE_PACKAGE_TYPE then
      match readTablePackage fuel sr with
      | None => None
      | Some (Ok tablePackage) =>
        Some (Ok (mkTableFile (stringPool f)
                    (<[Package_Id (TP_Header tablePackage) := tablePackage]>
                       (tablePackages f)),
                  chunkHeader))
      | Some (Err _) => Some Panic
      | Some Panic => Some Panic
      end
    else Some (Ok (f, chunkHeader))
  end.

(** The loop of [NewTableFile]; [size] is [header.Header.Size].
    [None]: the loop has not finished within [fuel] iterations. *)
Fixpoint NewTableFile_loop (fuel fuelPackage : nat) (f : TableFile)
    (sr : SectionReader) (size offset : Z) : option (result TableFile) :=
  if offset <? size then
    match fuel with
    | O => None
    | S fuel' =>
      match readChunk fuelPackage f (SectionReader_ReadAt sr) offset with
      | None => None
      | Some (Err e) => Some (Err e)
      | Some Panic => Some Panic
      | Some (Ok (f', chunkHeader)) =>
        NewTableFile_loop fuel' fuelPackage f' sr size
          (offset + Chunk_Size chunkHeader)
      end
    end
  else Some (Ok f).

(** The first statements of [NewTableFile]: the section reader over
    the whole source and the table header read from it.  The error of
    [binary.Read] is ignored: a short source leaves the zero header. *)
Definition readTableHeader (r : ReaderAt) : ResTableHeader * SectionReader :=
  let sr := NewSectionReader r 0 maxint64 in
  let '(rd, sr) := binaryRead sr sizeof_ResTableHeader in
  let header := match rd with
                | Ok bs => decodeResTableHeader bs
                | _ => mkResTableHeader zeroChunkHeader 0
                end in
  (header, sr).

(** [func NewTableFile(r io.ReaderAt) ( *TableFile, error)].  [fuel]
    bounds the walk of the root chunks, [fuelPackage] the walk inside
    each package chunk. *)
Definition NewTableFile (fuel fuelPackage : nat) (r : ReaderAt)
  : option (result TableFile) :=
  let f := mkTableFile None ∅ in
  let '(header, sr) := readTableHeader r in
  NewTableFile_loop fuel fuelPackage f sr
    (Chunk_Size (TableHeader_Header header))
    (Chunk_HeaderSize (TableHeader_Header header)).

(** The states the root walk goes through, as a step relation: the loop
    starts at [(f0, offset0)] and, while the offset is below [size], moves
    on by the declared size of the chunk [readChunk] returns. *)
Inductive visits (fuelPackage : nat) (sr : SectionReader) (size : Z)
    (f0 : TableFile) (offset0 : Z) : TableFile -> Z -> Prop :=
| visits_start : visits fuelPackage sr size f0 offset0 f0 offset0
| visits_step f offset f' chunkHeader :
    visits fuelPackage sr size f0 offset0 f offset ->
    offset < size ->
    readChunk fuelPackage f (SectionReader_ReadAt sr) offset
      = Some (Ok (f', chunkHeader)) ->
    visits fuelPackage sr size f0 offset0 f' (offset + Chunk_Size chunkHeader).

(** The package's type list with one more variant at its end, as
    [append] leaves it. *)
Definition appendType (p : TablePackage) (t : TableType) : TablePackage :=
  mkTablePackage (TP_Header p) (TypeStrings p) (KeyStrings p)
                 (TableTypes p ++ [t]).

End Table.

(** ** Concrete data for the examples

    An instance of the parameters: the type tags are those of the Android
    resource-table format (ResourceTypes.h); the pool is a list of
    strings whose lookup panics out of range, and whose wire format is
    not decoded (no example below reads a pool from bytes). *)
#[global] Instance exampleCommon : Common := {|
  ResStringPool := list string;
  readStringPool := fun _ => Err (ErrOther "string pool");
  pool_GetString := fun pool ref =>
    match pool with
    | None => None
    | Some strings => strings !! Z.to_nat ref
    end;
  RES_STRING_POOL_TYPE := 0x0001;
  RES_TABLE_PACKAGE_TYPE := 0x0200;
  RES_TABLE_TYPE_TYPE := 0x0201;
  RES_TABLE_TYPE_SPEC_TYPE := 0x0202;
  TYPE_NULL := 0x00;
  TYPE_STRING := 0x03;
  TYPE_INT_DEC := 0x10;
  TYPE_INT_HEX := 0x11;
  TYPE_INT_BOOLEAN := 0x12
|}.

Definition bytes_of (l : list Z) : list byte :=
  map (fun z => default Byte.x00 (Byte.of_N (Z.to_N z))) l.

(** A type chunk: type id 1, the all-unspecified configuration, two
    entry slots, the second one the sentinel; entry 0 is a string value
    with payload 0. *)
Definition exampleTypeChunk : list byte := bytes_of (
  (* ResChunkHeader: type 0x0201, header size 52, size 76 *)
  [0x01; 0x02; 52; 0; 76; 0; 0; 0] ++
  (* Id, Res0, Res1, EntryCount = 2, EntriesStart = 60 *)
  [1; 0; 0; 0; 2; 0; 0; 0; 60; 0; 0; 0] ++
  (* Config: Size = 32, everything else zero *)
  [32; 0; 0; 0] ++ replicate 28 0 ++
  (* entry index table: 0, 0xFFFFFFFF *)
  [0; 0; 0; 0; 0xFF; 0xFF; 0xFF; 0xFF] ++
  (* ResTableEntry: Size = 8, Flags = 0, Key = 0 *)
  [8; 0; 0; 0; 0; 0; 0; 0] ++
  (* ResValue: Size = 8, Res0 = 0, DataType = 3, Data = 0 *)
  [8; 0; 0; 3; 0; 0; 0; 0]).

Definition exampleTypeReader : SectionReader :=
  NewSectionReader (bytesReaderAt exampleTypeChunk) 0 76.

(** The type [readTableType] decodes from [exampleTypeChunk]. *)
Definition exampleType : TableType :=
  mkTableType
    (mkResTableType (mkResChunkHeader 0x0201 52 76) 1 0 0 2 60
       (mkResTableConfig 32 0 0 (0, 0) (0, 0) 0 0 0 0 0 0 0 0 0 0 0 0 0 0 0))
    [mkTableEntry (Some (mkResTableEntry 8 0 0)) (Some (mkResValue 8 0 3 0)) 0;
     zeroTableEntry].

Definition examplePackageHeader : ResTablePackage :=
  mkResTablePackage (mkResChunkHeader 0x0200 284 0) 1 [] 0 0 0 0.

(** A table with the one package (id 1) holding [exampleType], and the
    global pool ["hello"]. *)
Definition exampleTable : TableFile :=
  mkTableFile (Some ["hello"%string])
    {[ 1 := mkTablePackage examplePackageHeader None None [exampleType] ]}.

(** The same table without any package. *)
Definition emptyTable : TableFile := mkTableFile None ∅.

(** A type variant of id [id] with configuration [c] and no entries. *)
Definition variant (id : Z) (c : ResTableConfig) : TableType :=
  mkTableType (mkResTableType zeroChunkHeader id 0 0 0 0 c) [].

(** A table of 20 bytes: the table header (type 2, header size 12,
    size 20, no package) and one chunk at offset 12 of the unused type 0,
    header size 8, declaring the total size [chunkSize]. *)
Definition oneChunkTable (chunkSize : Z) : list byte := bytes_of (
  [2; 0; 12; 0; 20; 0; 0; 0; 0; 0; 0; 0] ++
  [0; 0; 8; 0; chunkSize; 0; 0; 0]).

(** A second set of parameters for the examples that decode a package:
    as [exampleCommon], with a pool decoder that accepts every chunk and
    answers the pool ["hello"] without reading it. *)
Definition stubCommon : Common := {|
  ResStringPool := list string;
  readStringPool := fun _ => Ok ["hello"%string];
  pool_GetString := fun pool ref =>
    match pool with
    | None => None
    | Some strings => strings !! Z.to_nat ref
    end;
  RES_STRING_POOL_TYPE := 0x0001;
  RES_TABLE_PACKAGE_TYPE := 0x0200;
  RES_TABLE_TYPE_TYPE := 0x0201;
  RES_TABLE_TYPE_SPEC_TYPE := 0x0202;
  TYPE_NULL := 0x00;
  TYPE_STRING := 0x03;
  TYPE_INT_DEC := 0x10;
  TYPE_INT_HEX := 0x11;
  TYPE_INT_BOOLEAN := 0x12
|}.

(** A table of 380 bytes: the table header, a string-pool chunk of 8
    bytes (its header only) and one package chunk (id 1, header size
    284, size 360) that holds [exampleTypeChunk]. *)
Definition examplePackageTable : list byte := bytes_of (
  (* ResTableHeader: type 2, header size 12, size 380, one package *)
  [2; 0; 12; 0; 0x7c; 1; 0; 0; 1; 0; 0; 0] ++
  (* string pool chunk: type 1, header size 8, size 8 *)
  [1; 0; 8; 0; 8; 0; 0; 0] ++
  (* ResTablePackage: type 0x0200, header size 284, size 360, Id = 1 *)
  [0; 2; 0x1c; 1; 0x68; 1; 0; 0; 1; 0; 0; 0] ++
  (* Name, TypeStrings, LastPublicType, KeyStrings, LastPublicKey *)
  replicate 256 0 ++ replicate 16 0) ++
  exampleTypeChunk.

(** A type variant of id [id] with configuration [c] whose one entry
    holds the value [v]. *)
Definition valueType (id : Z) (c : ResTableConfig) (v : ResValue) : TableType :=
  mkTableType (mkResTableType zeroChunkHeader id 0 0 1 0 c)
    [mkTableEntry (Some zeroResTableEntry) (Some v) 0].

(** The table with the one package (id 1) that holds the variants [ts]. *)
Definition tableOf (ts : list TableType) : TableFile :=
  mkTableFile (Some ["hello"%string])
    {[ 1 := mkTablePackage examplePackageHeader None None ts ]}.

(** ** Locale *)

(** [fmt.Sprintf("%c", v)] for a [uint8] operand: the UTF-8 encoding of
    the code point [v], one byte below 0x80 and two bytes from there. *)
Definition fmt_c (v : Z) : string :=
  if v <? 0x80 then String (Ascii.ascii_of_N (Z.to_N v)) EmptyString
  else
    String (Ascii.ascii_of_N (Z.to_N (Z.lor 0xC0 (Z.shiftr v 6))))
      (String (Ascii.ascii_of_N (Z.to_N (Z.lor 0x80 (Z.land v 0x3F))))
         EmptyString).

(** [func (c *ResTableConfig) Locale() string] *)
Definition Locale (c : ResTableConfig) : string :=
  if (fst (Language c) =? 0) then EmptyString
  else if (fst (Country c) =? 0) then
    (fmt_c (fst (Language c)) ++ fmt_c (snd (Language c)))%string
  else
    (fmt_c (fst (Language c)) ++ fmt_c (snd (Language c)) ++ "-"
     ++ fmt_c (fst (Country c)) ++ fmt_c (snd (Country c)))%string.

(** ** An invariant of decoded tables *)

Section TableInvariant.
Context `{Common}.

(** What every table built by the root walk satisfies. *)
Definition decodedTable (f : TableFile) : Prop :=
  forall k p, tablePackages f !! k = Some p ->
    Package_Id (TP_Header p) = k
    /\ TypeStrings p <> None /\ KeyStrings p <> None
    /\ forall t, In t (TableTypes p) ->
         length (Entries t) = Z.to_nat (Type_EntryCount (Header t)).

End TableInvariant.

(** * Theorems *)

(** ** Early returns as nested conditionals *)

Lemma or_return_ret_if {A} (c : bool) (v : A) rest d :
  or_return (seq_ret (ret_if c v) rest) d = if c then v else or_return rest d.
Proof. destruct c; reflexivity. Qed.

Lemma or_return_ret_if_last {A} (c : bool) (v d : A) :
  or_return (ret_if c v) d = if c then v else d.
Proof. destruct c; reflexivity. Qed.

Lemma or_return_when2 {A} (g c1 c2 : bool) (v1 v2 : A) rest d :
  or_return (seq_ret (when g (seq_ret (ret_if c1 v1) (ret_if c2 v2))) rest) d
  = if g && c1 then v1 else if g && c2 then v2 else or_return rest d.
Proof. destruct g, c1, c2; reflexivity. Qed.

Lemma or_return_when2_last {A} (g c1 c2 : bool) (v1 v2 d : A) :
  or_return (when g (seq_ret (ret_if c1 v1) (ret_if c2 v2))) d
  = if g && c1 then v1 else if g && c2 then v2 else d.
Proof. destruct g, c1, c2; reflexivity. Qed.

Lemma or_return_if_ret_if_same {A} (t c1 c2 : bool) (v : A) rest d :
  or_return (seq_ret (if t then ret_if c1 v else ret_if c2 v) rest) d
  = if (if t then c1 else c2) then v else or_return rest d.
Proof. destruct t, c1, c2; reflexivity. Qed.

Ltac flatten_returns :=
  repeat first
    [ rewrite or_return_when2 | rewrite or_return_ret_if
    | rewrite or_return_if_ret_if_same
    | rewrite or_return_when2_last | rewrite or_return_ret_if_last ].

Ltac flatten_returns_in H :=
  repeat first
    [ rewrite or_return_when2 in H | rewrite or_return_ret_if in H
    | rewrite or_return_if_ret_if_same in H
    | rewrite or_return_when2_last in H | rewrite or_return_ret_if_last in H ].

(** Boolean equations into propositions over [Z]. *)
Ltac bool_to_prop :=
  repeat match goal with
  | H : _ = true |- _ =>
      progress rewrite ?andb_true_iff, ?orb_true_iff, ?negb_true_iff,
        ?andb_false_iff, ?orb_false_iff, ?negb_false_iff,
        ?Z.eqb_eq, ?Z.eqb_neq, ?Z.gtb_ltb, ?Z.ltb_lt, ?Z.ltb_ge in H
  | H : _ = false |- _ =>
      progress rewrite ?andb_true_iff, ?orb_true_iff, ?negb_true_iff,
        ?andb_false_iff, ?orb_false_iff, ?negb_false_iff,
        ?Z.eqb_eq, ?Z.eqb_neq, ?Z.gtb_ltb, ?Z.ltb_lt, ?Z.ltb_ge in H
  end.

Ltac step_if H :=
  match type of H with
  | (if ?c then _ else _) = _ => let E := fresh "E" in destruct c eqn:E
  end.



Ltac step_if_as H E :=
  match type of H with
  | (if ?c then _ else _) = _ => destruct c eqn:E
  end.

(** ** Configuration matching *)

(** What a successful [Match] says, axis by axis. *)
Lemma Match_true (c s : ResTableConfig) :
  Match c s = true ->
  (Mcc c = 0 \/ Mcc c = Mcc s) /\
  (Mnc c = 0 \/ Mnc c = Mnc s) /\
  (fst (Language s) = 0 \/ fst (Language c) = 0 \/ fst (Language c) = fst (Language s)) /\
  (fst (Country s) = 0 \/ fst (Country c) = 0 \/ fst (Country c) = fst (Country s)) /\
  (ScreenWidth s = 0 \/ ScreenWidth c = 0 \/ ScreenWidth c = ScreenWidth s) /\
  (ScreenHeight s = 0 \/ ScreenHeight c = 0 \/ ScreenHeight c = ScreenHeight s) /\
  (SDKVersion s = 0 \/ SDKVersion c = 0 \/ SDKVersion c <= SDKVersion s) /\
  (MinorVersion s = 0 \/ MinorVersion c = 0 \/ MinorVersion c = MinorVersion s).
Proof.
  intros H. unfold Match in H. flatten_returns_in H.
  repeat (step_if H; [discriminate H|]). clear H.
  repeat split;
    match goal with
    | E : _ = false |- _ =>
        solve [ clear - E;
                try match type of E with
                    | (if ?t then _ else _) = false => destruct t eqn:?
                    end;
                bool_to_prop; lia ]
    end.
Qed.


(** C8.  A candidate with every axis unspecified matches every
    requested configuration. *)
Theorem Match_zero_candidate (r : ResTableConfig) :
  Match zeroConfig r = true.
Proof.
  unfold Match. flatten_returns. cbn [zeroConfig Mcc Mnc Language Country
    ScreenWidth ScreenHeight SDKVersion MinorVersion fst snd].
  change (negb (0 =? 0)) with false.
  rewrite ?andb_false_r. cbn [andb].
  destruct (Mcc r =? 0); destruct (Mnc r =? 0); reflexivity.
Qed.

(** C5 (amended).  Against a requested configuration with every axis
    unspecified, [Match c] is true exactly when [c] leaves mcc and mnc
    unspecified; the other axes of [c] are not looked at. *)
Theorem Match_unspecified_request (c : ResTableConfig) :
  Match c zeroConfig = true <-> Mcc c = 0 /\ Mnc c = 0.
Proof.
  split.
  - intros HM. apply Match_true in HM.
    destruct HM as (Hmcc & Hmnc & _). cbn in Hmcc, Hmnc. lia.
  - intros [Hmcc Hmnc]. unfold Match. flatten_returns.
    cbn [zeroConfig Mcc Mnc Language Country
         ScreenWidth ScreenHeight SDKVersion MinorVersion fst snd].
    rewrite Hmcc, Hmnc. reflexivity.
Qed.

(** C5, counterexample.  A candidate that specifies the language "fr"
    matches the all-unspecified request. *)
Lemma Match_unspecified_request_accepts_language :
  Match (withLanguage 102 114) zeroConfig = true
  /\ fst (Language (withLanguage 102 114)) <> 0.
Proof. split; [reflexivity | discriminate]. Qed.

(** C6 (amended).  If the requested configuration specifies an SDK
    version and the candidate specifies a strictly greater one, [Match]
    is false. *)
Theorem Match_rejects_newer_SDKVersion (c r : ResTableConfig) :
  SDKVersion r <> 0 -> SDKVersion c <> 0 ->
  SDKVersion c > SDKVersion r ->
  Match c r = false.
Proof.
  intros Hr Hc Hgt. destruct (Match c r) eqn:HM; [|reflexivity].
  apply Match_true in HM. destruct HM as (_ & _ & _ & _ & _ & _ & Hsdk & _).
  lia.
Qed.

(** C6, witness: SDK version 30 against a request for 21. *)
Lemma Match_rejects_newer_SDKVersion_witness :
  Match (withSDKVersion 30) (withSDKVersion 21) = false.
Proof.
  apply Match_rejects_newer_SDKVersion; cbn; [discriminate | discriminate | lia].
Defined.

(** C6, counterexample.  A candidate with SDK version 5 matches a
    request whose SDK version is unspecified (zero). *)
Lemma Match_accepts_SDKVersion_for_unspecified_request :
  SDKVersion (withSDKVersion 5) <> 0
  /\ SDKVersion (withSDKVersion 5) > SDKVersion zeroConfig
  /\ Match (withSDKVersion 5) zeroConfig = true.
Proof. split; [discriminate | split; reflexivity]. Qed.


(** ** The best-match comparator *)

(** One condition of [IsBetterThan], looked at in both directions. *)
Ltac axis H1 H2 E1 E2 tac :=
  step_if_as H1 E1; step_if_as H2 E2; [ tac | tac | tac | ].

(** C1 (amended).  For configurations [a] and [b] that both [Match] the
    reference [r], when the orientation axis is not consulted ([a] and
    [b] agree on orientation and [r] leaves it unspecified) and [a] and
    [b] do not specify two different minor versions against a reference
    that leaves the minor version unspecified, [IsBetterThan a b r] and
    [IsBetterThan b a r] are never both true. *)
Theorem IsBetterThan_not_both_Match (a b r : ResTableConfig) :
  Match a r = true -> Match b r = true ->
  Orientation a = Orientation b -> Orientation r = 0 ->
  (MinorVersion r <> 0 \/ MinorVersion a = 0 \/ MinorVersion b = 0
   \/ MinorVersion a = MinorVersion b) ->
  ~ (IsBetterThan a b (Some r) = true /\ IsBetterThan b a (Some r) = true).
Proof.
  intros Ha Hb Ho Hr Hm [H1 H2].
  apply Match_true in Ha, Hb.
  destruct Ha as (Amcc & Amnc & Alang & Actry & Aw & Ah & Asdk & Amin).
  destruct Hb as (Bmcc & Bmnc & Blang & Bctry & Bw & Bh & Bsdk & Bmin).
  unfold IsBetterThan in H1, H2.
  flatten_returns_in H1. flatten_returns_in H2.
  (* imsi *)
  axis H1 H2 E1 E2 ltac:(clear - H1 H2 E1 E2 Amcc Bmcc; bool_to_prop; lia).
  clear E1 E2 Amcc Bmcc.
  axis H1 H2 E1 E2 ltac:(clear - H1 H2 E1 E2 Amnc Bmnc; bool_to_prop; lia).
  clear E1 E2 Amnc Bmnc.
  (* locale *)
  axis H1 H2 E1 E2 ltac:(clear - H1 H2 E1 E2 Alang Blang; bool_to_prop; lia).
  clear E1 E2 Alang Blang.
  axis H1 H2 E1 E2 ltac:(clear - H1 H2 E1 E2 Actry Bctry; bool_to_prop; lia).
  clear E1 E2 Actry Bctry.
  (* orientation *)
  axis H1 H2 E1 E2 ltac:(clear - H1 H2 E1 E2 Ho Hr; bool_to_prop; lia).
  clear E1 E2 Ho Hr.
  (* screen size *)
  axis H1 H2 E1 E2 ltac:(clear - H1 H2 E1 E2 Aw Bw; bool_to_prop; lia).
  clear E1 E2 Aw Bw.
  axis H1 H2 E1 E2 ltac:(clear - H1 H2 E1 E2 Ah Bh; bool_to_prop; lia).
  clear E1 E2 Ah Bh.
  (* version *)
  clear Asdk Bsdk.
  step_if_as H1 E1; step_if_as H2 E2.
  - clear - H1 H2. bool_to_prop. lia.
  - step_if_as H2 E4; [|discriminate H2].
    clear - E1 E2 E4. bool_to_prop. lia.
  - step_if_as H1 E3; [|discriminate H1].
    clear - E1 E2 E3. bool_to_prop. lia.
  - step_if_as H1 E3; [|discriminate H1].
    step_if_as H2 E4; [|discriminate H2].
    clear - H1 H2 E3 Amin Bmin Hm. bool_to_prop. lia.
Qed.

(** One axis of [IsMoreSpecificThan], looked at in both directions. *)
Ltac specific_axis H1 H2 :=
  let E1 := fresh "E" in let E2 := fresh "E" in
  let E3 := fresh "E" in let E4 := fresh "E" in
  step_if_as H1 E1; [discriminate H1|];
  step_if_as H2 E2; [discriminate H2|];
  (step_if_as H1 E3; [clear - E1 E2 E3; bool_to_prop; lia|]);
  (step_if_as H2 E4; [clear - E1 E2 E4; bool_to_prop; lia|]);
  clear E1 E2 E3 E4.

(** X1.  With a nil reference the comparison is [IsMoreSpecificThan],
    which never holds in both directions. *)
Lemma IsBetterThan_nil_not_both (a b : ResTableConfig) :
  ~ (IsBetterThan a b None = true /\ IsBetterThan b a None = true).
Proof.
  cbn [IsBetterThan]. intros [H1 H2]. unfold IsMoreSpecificThan in H1, H2.
  flatten_returns_in H1. flatten_returns_in H2.
  do 10 specific_axis H1 H2.
  discriminate H1.
Qed.

(** C7, the code at the failing input.  A candidate that specifies a
    minor version (and no SDK version) is not better than a candidate
    with every axis unspecified, whether or not the reference specifies
    the minor version: the version block is entered only when the
    candidate specifies an SDK version or the other a minor version. *)
Theorem IsBetterThan_minor_version_needs_SDKVersion :
  MinorVersion (withMinorVersion 1) <> 0
  /\ MinorVersion zeroConfig = 0
  /\ IsBetterThan (withMinorVersion 1) zeroConfig (Some zeroConfig) = false
  /\ IsBetterThan (withMinorVersion 1) zeroConfig (Some (withMinorVersion 1)) = false.
Proof. split; [discriminate | repeat split]. Qed.

(** C1, counterexample.  Two candidates with different minor versions
    both match the all-unspecified reference, and each is better than the
    other. *)
Lemma IsBetterThan_both_true_minor_versions :
  Match (withMinorVersion 1) zeroConfig = true
  /\ Match (withMinorVersion 2) zeroConfig = true
  /\ IsBetterThan (withMinorVersion 1) (withMinorVersion 2) (Some zeroConfig) = true
  /\ IsBetterThan (withMinorVersion 2) (withMinorVersion 1) (Some zeroConfig) = true.
Proof. repeat split. Qed.

(** C1, witness: the language "fr" against the unqualified variant. *)
Lemma IsBetterThan_not_both_Match_witness :
  ~ (IsBetterThan (withLanguage 102 114) zeroConfig (Some (withLanguage 102 114)) = true
     /\ IsBetterThan zeroConfig (withLanguage 102 114) (Some (withLanguage 102 114)) = true).
Proof.
  apply IsBetterThan_not_both_Match;
    [reflexivity | reflexivity | reflexivity | reflexivity | right; left; reflexivity].
Defined.

(** The orientation axis decides whenever the reference specifies an
    orientation, also between equal candidates: a candidate is then
    better than itself. *)
Example IsBetterThan_both_true_orientation :
  IsBetterThan (withOrientation 1) (withOrientation 1) (Some (withOrientation 1)) = true.
Proof. reflexivity. Qed.

(** Candidates that do not match the reference can each be better than
    the other on any axis. *)
Example IsBetterThan_both_true_unmatched_mcc :
  IsBetterThan (withMcc 1) (withMcc 2) (Some (withMcc 3)) = true
  /\ IsBetterThan (withMcc 2) (withMcc 1) (Some (withMcc 3)) = true.
Proof. split; reflexivity. Qed.


(** ** The resolver *)

Section ResolverFacts.
Context `{Common}.

(** Scanning a list in two parts. *)
Lemma findType_loop_app id config (l1 l2 : list TableType) best :
  findType_loop id config (l1 ++ l2) best
  = (best' ← findType_loop id config l1 best; findType_loop id config l2 best').
Proof.
  revert best. induction l1 as [|t l1 IH]; intros best;
    cbn [app findType_loop].
  - reflexivity.
  - destruct (negb (Type_Id (Header t) =? id)); [apply IH|].
    destruct config as [settings|]; [|reflexivity].
    destruct (negb (Match (Config (Header t)) settings)); [apply IH|].
    destruct best as [b|]; [|apply IH].
    destruct (IsBetterThan _ _ _); apply IH.
Qed.

(** One more variant at the end of the scan. *)
Lemma findType_loop_last id settings (t : TableType) (b : TableType) :
  findType_loop id (Some settings) [t] (Some b)
  = Ok (Some (if negb (Type_Id (Header t) =? id) then b
              else if negb (Match (Config (Header t)) settings) then b
              else if IsBetterThan (Config (Header t)) (Config (Header b))
                        (Some settings)
                   then t else b)).
Proof.
  cbn [findType_loop].
  destruct (negb (Type_Id (Header t) =? id)); [reflexivity|].
  destruct (negb (Match (Config (Header t)) settings)); [reflexivity|].
  destruct (IsBetterThan (Config (Header t)) (Config (Header b)) (Some settings));
    reflexivity.
Qed.

(** C9.  Best-match selection is a linear scan that keeps the first
    seen variant on a tie: if [b] is the best variant of the package's
    type list, then with one more variant [t] at the end of the list [b]
    stays the result whenever [IsBetterThan t b] is false, and the
    result changes only to [t], and only when [t] has the requested type
    id, matches the requested configuration and is better than [b]. *)
Theorem findType_first_seen_wins (p : TablePackage) (t b : TableType)
    (id : Z) (settings : ResTableConfig) :
  findType (Some p) id (Some settings) = Ok (Some b) ->
  (IsBetterThan (Config (Header t)) (Config (Header b)) (Some settings) = false ->
   findType (Some (appendType p t)) id (Some settings) = Ok (Some b))
  /\ (forall t', findType (Some (appendType p t)) id (Some settings) = Ok (Some t') ->
      t' <> b ->
      t' = t /\ Type_Id (Header t) = id
      /\ Match (Config (Header t)) settings = true
      /\ IsBetterThan (Config (Header t)) (Config (Header b)) (Some settings) = true).
Proof.
  unfold findType, appendType. cbn [TableTypes]. intros Hb.
  rewrite findType_loop_app, Hb.
  cbn [mbind result_bind].
  rewrite findType_loop_last.
  destruct (Z.eqb_spec (Type_Id (Header t)) id) as [Hid|Hid]; cbn [negb].
  2: { split; [reflexivity|]. intros t' [= <-] Hne. contradiction. }
  destruct (Match (Config (Header t)) settings) eqn:HM; cbn [negb].
  2: { split; [reflexivity|]. intros t' [= <-] Hne. contradiction. }
  destruct (IsBetterThan (Config (Header t)) (Config (Header b)) (Some settings))
    eqn:HB.
  - split; [discriminate|]. intros t' [= <-] _. auto.
  - split; [reflexivity|]. intros t' [= <-] Hne. contradiction.
Qed.

(** C10.  Whenever [GetResource] returns, the error of its result is
    nil. *)
Theorem GetResource_error_nil (f : TableFile) (id : ResId)
    (config : option ResTableConfig) (v : value) (e : option error) :
  GetResource f id config = Ok (v, e) -> e = None.
Proof.
  unfold GetResource.
  destruct (findType (findPackage f (ResId_Package id)) (ResId_Type id) config)
    as [[t|]| |]; cbn [mbind result_bind]; try discriminate.
  destruct (Entries t !! Z.to_nat (ResId_Entry id)) as [en|]; try discriminate.
  destruct (Value en) as [val|]; try discriminate.
  repeat match goal with
  | |- (if ?c then _ else _) = _ -> _ => destruct c
  | |- match ?c with Some _ => _ | None => _ end = _ -> _ => destruct c
  end; congruence.
Qed.

(** C2 (amended).  For a resource id whose package field names no
    package of the table, [GetResource] does not return: [findPackage]
    answers nil and [findType] dereferences it, a panic. *)
Theorem GetResource_unknown_package_panics (f : TableFile) (id : ResId)
    (config : option ResTableConfig) :
  findPackage f (ResId_Package id) = None ->
  GetResource f id config = Panic.
Proof.
  intros Hp. unfold GetResource. rewrite Hp. reflexivity.
Qed.

(** The loop of [readTableType] leaves the slots before [i] alone. *)
Lemma readEntries_lookup_lt header (idxs : list Z) :
  forall sr i (entries : list TableEntry) (j : nat),
  (j < i)%nat ->
  (readEntries header sr i idxs entries).1 !! j = entries !! j.
Proof.
  induction idxs as [|index rest IH]; intros sr i entries j Hj;
    cbn [readEntries].
  - reflexivity.
  - destruct (index =? 4294967295).
    + apply IH. lia.
    + destruct (binaryRead (Seek sr (uint32 (EntriesStart header + index)))
                  sizeof_ResTableEntry) as [rk sr1].
      destruct (binaryRead sr1 sizeof_ResValue) as [rv sr2].
      rewrite IH by lia.
      rewrite !list_lookup_alter_ne by lia. reflexivity.
Qed.

(** A slot whose index is the sentinel keeps what [make] put there. *)
Lemma readEntries_sentinel header (idxs : list Z) :
  forall sr i (entries : list TableEntry) (k : nat),
  idxs !! k = Some 0xFFFFFFFF ->
  (readEntries header sr i idxs entries).1 !! (i + k)%nat = entries !! (i + k)%nat.
Proof.
  induction idxs as [|index rest IH]; intros sr i entries k Hk.
  - discriminate.
  - destruct k as [|k]; simpl in Hk.
    + injection Hk as ->. cbn [readEntries]. rewrite Nat.add_0_r.
      change (4294967295 =? 4294967295) with true. cbn iota.
      apply readEntries_lookup_lt. lia.
    + cbn [readEntries]. destruct (index =? 4294967295).
      * replace (i + S k)%nat with (S i + k)%nat by lia. apply IH, Hk.
      * destruct (binaryRead (Seek sr (uint32 (EntriesStart header + index)))
                    sizeof_ResTableEntry) as [rk sr1].
        destruct (binaryRead sr1 sizeof_ResValue) as [rv sr2].
        replace (i + S k)%nat with (S i + k)%nat by lia.
        rewrite IH by exact Hk.
        rewrite !list_lookup_alter_ne by lia. reflexivity.
Qed.

Lemma u32s_length bs n : length (u32s bs n) = n.
Proof. unfold u32s. rewrite length_map, length_seq. reflexivity. Qed.

Lemma readTypeHeader_indexes sr header idxs sr' :
  readTypeHeader sr = Ok (header, idxs, sr') ->
  length idxs = Z.to_nat (Type_EntryCount header).
Proof.
  unfold readTypeHeader.
  destruct (binaryRead sr sizeof_ResTableType) as [[bs| |] sr1];
    cbn [mbind result_bind]; try discriminate.
  destruct (binaryRead _ _) as [[bs2| |] sr2];
    cbn [mbind result_bind]; try discriminate.
  intros [= <- <- <-]. apply u32s_length.
Qed.

(** The sentinel is no decode error, and its slot is the zero entry:
    both pointers of the slot are nil. *)
Lemma readTableType_sentinel sr header idxs sr' t (k : nat) :
  readTypeHeader sr = Ok (header, idxs, sr') ->
  readTableType sr = Ok t ->
  idxs !! k = Some 0xFFFFFFFF ->
  Entries t !! k = Some zeroTableEntry.
Proof.
  intros Hh Ht Hk. unfold readTableType in Ht. rewrite Hh in Ht.
  cbn [mbind result_bind] in Ht.
  pose proof (readEntries_sentinel header idxs sr' 0
                (replicate (Z.to_nat (Type_EntryCount header)) zeroTableEntry)
                k Hk) as Hs.
  destruct (readEntries header sr' 0 idxs _) as [entries sr2].
  injection Ht as <-. cbn [Entries]. simpl in Hs. rewrite Hs.
  apply lookup_replicate_2.
  rewrite <- (readTypeHeader_indexes _ _ _ _ Hh).
  apply lookup_lt_Some in Hk. exact Hk.
Qed.

Lemma readTableType_ok sr header idxs sr' :
  readTypeHeader sr = Ok (header, idxs, sr') ->
  exists t, readTableType sr = Ok t.
Proof.
  intros Hh. unfold readTableType. rewrite Hh. cbn [mbind result_bind].
  destruct (readEntries header sr' 0 idxs _) as [entries sr2]. eauto.
Qed.

(** C3 (amended).  For a resource id whose entry index is out of range
    for the selected type, or whose slot [readTableType] decoded from the
    sentinel 0xFFFFFFFF of the entry index table (without a decode
    error, as the entry that holds no value), [GetResource] does not
    return: it panics. *)
Theorem GetResource_unknown_entry_panics (f : TableFile) (id : ResId)
    (config : option ResTableConfig) (p : TablePackage) (t : TableType) :
  findPackage f (ResId_Package id) = Some p ->
  findType (Some p) (ResId_Type id) config = Ok (Some t) ->
  (Z.of_nat (length (Entries t)) <= ResId_Entry id
   \/ exists sr header entryIndexes sr',
        readTypeHeader sr = Ok (header, entryIndexes, sr')
        /\ readTableType sr = Ok t
        /\ entryIndexes !! Z.to_nat (ResId_Entry id) = Some 0xFFFFFFFF) ->
  GetResource f id config = Panic.
Proof.
  intros Hp Ht Hslot. unfold GetResource. rewrite Hp, Ht.
  cbn [mbind result_bind].
  destruct Hslot as [Hrange | (sr & header & idxs & sr' & Hh & Hd & Hk)].
  - rewrite lookup_ge_None_2 by lia. reflexivity.
  - rewrite (readTableType_sentinel _ _ _ _ _ _ Hh Hd Hk). reflexivity.
Qed.

End ResolverFacts.

(** C2, counterexample.  No package of [exampleTable] has the id 2;
    resolving an id of that package panics. *)
Lemma GetResource_unknown_package_example :
  findPackage exampleTable (ResId_Package 0x02010000) = None
  /\ GetResource exampleTable 0x02010000 (Some zeroConfig) = Panic.
Proof. split; vm_compute; reflexivity. Qed.

(** C2, witness. *)
Lemma GetResource_unknown_package_panics_witness :
  GetResource exampleTable 0x7f010000 (Some zeroConfig) = Panic.
Proof.
  apply GetResource_unknown_package_panics. vm_compute. reflexivity.
Defined.

(** C3, counterexample.  [exampleType] is what [readTableType] decodes
    from [exampleTypeChunk]; entry 0 resolves to "hello", entry 1 (the
    sentinel slot) and entry 5 (out of range) panic. *)
Lemma GetResource_unknown_entry_example :
  readTableType exampleTypeReader = Ok exampleType
  /\ GetResource exampleTable 0x01010000 (Some zeroConfig) = Ok (VString "hello", None)
  /\ GetResource exampleTable 0x01010001 (Some zeroConfig) = Panic
  /\ GetResource exampleTable 0x01010005 (Some zeroConfig) = Panic.
Proof. repeat split; vm_compute; reflexivity. Qed.

(** C3, witness: the sentinel slot of [exampleTypeChunk]. *)
Lemma GetResource_unknown_entry_panics_witness :
  GetResource exampleTable 0x01010001 (Some zeroConfig) = Panic.
Proof.
  apply (GetResource_unknown_entry_panics exampleTable 0x01010001
           (Some zeroConfig)
           (mkTablePackage examplePackageHeader None None [exampleType])
           exampleType).
  - vm_compute. reflexivity.
  - vm_compute. reflexivity.
  - right. exists exampleTypeReader. do 3 eexists.
    split; [vm_compute; reflexivity|].
    split; vm_compute; reflexivity.
Defined.

(** C10, witness. *)
Lemma GetResource_error_nil_witness :
  GetResource exampleTable 0x01010000 (Some zeroConfig) = Ok (VString "hello", None)
  /\ @None error = None.
Proof.
  assert (GetResource exampleTable 0x01010000 (Some zeroConfig)
          = Ok (VString "hello", None)) as Hret by (vm_compute; reflexivity).
  split; [exact Hret | exact (GetResource_error_nil _ _ _ _ _ Hret)].
Defined.

(** C9, witness: the unqualified variant comes first; the "fr" variant
    after it ties with it under the all-unspecified request and does not
    replace it. *)
Lemma findType_first_seen_wins_witness :
  let p := mkTablePackage examplePackageHeader None None
             [variant 1 zeroConfig] in
  findType (Some (appendType p (variant 1 (withLanguage 102 114)))) 1
           (Some zeroConfig)
  = Ok (Some (variant 1 zeroConfig)).
Proof.
  intros p.
  apply (findType_first_seen_wins p (variant 1 (withLanguage 102 114))
           (variant 1 zeroConfig) 1 zeroConfig); reflexivity.
Defined.

(** ** The root chunk walk *)

Section WalkFacts.
Context `{Common}.

(** A chunk that declares the size zero and leaves the table as it was
    (any chunk of a type the walk does not recognise) is read again and
    again: no fuel is enough. *)
Lemma NewTableFile_loop_stuck fuelPackage f sr size offset chunkHeader :
  offset < size ->
  readChunk fuelPackage f (SectionReader_ReadAt sr) offset
    = Some (Ok (f, chunkHeader)) ->
  Chunk_Size chunkHeader = 0 ->
  forall fuel, NewTableFile_loop fuel fuelPackage f sr size offset = None.
Proof.
  intros Hlt Hread Hzero fuel. induction fuel as [|fuel IH];
    cbn [NewTableFile_loop].
  - destruct (Z.ltb_spec offset size); [reflexivity | lia].
  - destruct (Z.ltb_spec offset size); [|lia].
    rewrite Hread, Hzero, Z.add_0_r. exact IH.
Qed.

(** The walk ends within [size - offset] iterations when every chunk it
    visits is read to the end and, when it is read without error,
    declares a positive size. *)
Lemma NewTableFile_loop_terminates fuelPackage sr size f0 offset0 :
  (forall f offset,
     visits fuelPackage sr size f0 offset0 f offset -> offset < size ->
     exists res,
       readChunk fuelPackage f (SectionReader_ReadAt sr) offset = Some res
       /\ forall f' chunkHeader,
            res = Ok (f', chunkHeader) -> 0 < Chunk_Size chunkHeader) ->
  forall fuel f offset,
    visits fuelPackage sr size f0 offset0 f offset ->
    (Z.to_nat (size - offset) <= fuel)%nat ->
    exists res, NewTableFile_loop fuel fuelPackage f sr size offset = Some res.
Proof.
  intros Hadv fuel. induction fuel as [|fuel IH]; intros f offset Hv Hfuel;
    cbn [NewTableFile_loop]; destruct (Z.ltb_spec offset size) as [Hlt|Hge];
    eauto; try lia.
  destruct (Hadv f offset Hv Hlt) as (res & Hread & Hpos). rewrite Hread.
  destruct res as [[f' chunkHeader]|e|]; eauto.
  specialize (Hpos f' chunkHeader eq_refl).
  apply IH; [eapply visits_step; eauto | lia].
Qed.

(** C4 (amended).  For every byte source in which every chunk the root
    walk visits is read to the end (the walk of a package chunk
    finishes) and, when it is read without error, declares a total size
    of at least 1, the walk terminates: with fuel for
    [Size - HeaderSize] iterations [NewTableFile] gives a result. *)
Theorem NewTableFile_terminates_when_chunks_advance (r : ReaderAt)
    (fuelPackage : nat) :
  let header := TableHeader_Header (readTableHeader r).1 in
  let sr := (readTableHeader r).2 in
  let f0 := mkTableFile None ∅ in
  (forall f offset,
     visits fuelPackage sr (Chunk_Size header) f0 (Chunk_HeaderSize header)
            f offset ->
     offset < Chunk_Size header ->
     exists res,
       readChunk fuelPackage f (SectionReader_ReadAt sr) offset = Some res
       /\ forall f' chunkHeader,
            res = Ok (f', chunkHeader) -> 0 < Chunk_Size chunkHeader) ->
  forall fuel,
    (Z.to_nat (Chunk_Size header - Chunk_HeaderSize header) <= fuel)%nat ->
    exists res, NewTableFile fuel fuelPackage r = Some res.
Proof.
  intros header sr f0 Hadv fuel Hfuel. unfold NewTableFile.
  subst header sr. destruct (readTableHeader r) as [hdr sr]. cbn [fst snd] in *.
  eapply NewTableFile_loop_terminates; [exact Hadv | apply visits_start | exact Hfuel].
Qed.

End WalkFacts.


(** ** Concrete tables *)

(** The chunk of [oneChunkTable 0] is read as it stands and leaves the
    table unchanged. *)
Lemma oneChunkTable_zero_stuck fuelPackage :
  let sr := (readTableHeader (bytesReaderAt (oneChunkTable 0))).2 in
  readChunk fuelPackage emptyTable (SectionReader_ReadAt sr) 12
  = Some (Ok (emptyTable, mkResChunkHeader 0 8 0)).
Proof. vm_compute. reflexivity. Qed.

(** C4, counterexample.  On a table whose one chunk is of an
    unrecognised type and declares the total size zero, [NewTableFile]
    gives no result, neither a table nor an error, whatever the fuel. *)
Lemma NewTableFile_zero_size_chunk_never_returns :
  ~ exists fuel fuelPackage res,
      NewTableFile fuel fuelPackage (bytesReaderAt (oneChunkTable 0)) = Some res.
Proof.
  intros (fuel & fuelPackage & res & Hres).
  unfold NewTableFile in Hres.
  pose proof (oneChunkTable_zero_stuck fuelPackage) as Hstuck. cbn zeta in Hstuck.
  destruct (readTableHeader (bytesReaderAt (oneChunkTable 0))) as [hdr sr] eqn:Hh.
  assert (TableHeader_Header hdr = mkResChunkHeader 2 12 20) as Hhdr.
  { apply (f_equal fst) in Hh. cbn [fst] in Hh. rewrite <- Hh.
    vm_compute. reflexivity. }
  rewrite Hhdr in Hres. cbn [Chunk_Size Chunk_HeaderSize] in Hres.
  cbn [snd] in Hstuck.
  rewrite (NewTableFile_loop_stuck fuelPackage _ sr 20 12 _ ltac:(lia) Hstuck eq_refl)
    in Hres.
  discriminate Hres.
Qed.

(** The walk over [oneChunkTable 8] visits the offsets 12 and 20 only. *)
Lemma oneChunkTable_visits f offset :
  let r := bytesReaderAt (oneChunkTable 8) in
  let header := TableHeader_Header (readTableHeader r).1 in
  visits 0 (readTableHeader r).2 (Chunk_Size header) (mkTableFile None ∅)
         (Chunk_HeaderSize header) f offset ->
  f = emptyTable /\ (offset = 12 \/ offset = 20).
Proof.
  intros r header Hv. induction Hv as [|f offset f' chunkHeader Hv IH Hlt Hread].
  - split; [reflexivity | left; vm_compute; reflexivity].
  - destruct IH as [-> [-> | ->]].
    + vm_compute in Hread. injection Hread as <- <-.
      split; [reflexivity | right; reflexivity].
    + vm_compute in Hlt. discriminate Hlt.
Qed.

(** C4, witness: the one chunk declares its 8 bytes. *)
Lemma NewTableFile_terminates_when_chunks_advance_witness :
  exists res, NewTableFile 8 0 (bytesReaderAt (oneChunkTable 8)) = Some res.
Proof.
  apply (NewTableFile_terminates_when_chunks_advance
           (bytesReaderAt (oneChunkTable 8)) 0).
  - intros f offset Hv Hlt.
    destruct (oneChunkTable_visits f offset Hv) as [-> [-> | ->]].
    + eexists. split; [vm_compute; reflexivity|].
      intros f' chunkHeader [= <- <-]. reflexivity.
    + vm_compute in Hlt. discriminate Hlt.
  - vm_compute. lia.
Defined.

(** * Further properties *)

(** ** More on configuration matching *)

Ltac reject_step Hk :=
  match goal with
  | |- (if ?c then _ else _) = true =>
      let E := fresh "E" in
      destruct c eqn:E;
      [ exfalso; clear - E Hk;
        repeat match type of E with
               | (if ?t then _ else _) = _ => destruct t eqn:?
               end;
        bool_to_prop; lia
      | clear E ]
  end.

(** [Match], axis by axis. *)
Lemma Match_axes (c s : ResTableConfig) :
  Match c s = true <->
  (Mcc c = 0 \/ Mcc c = Mcc s) /\
  (Mnc c = 0 \/ Mnc c = Mnc s) /\
  (fst (Language s) = 0 \/ fst (Language c) = 0
   \/ (fst (Language c) = fst (Language s) /\ snd (Language c) = snd (Language s))) /\
  (fst (Country s) = 0 \/ fst (Country c) = 0
   \/ (fst (Country c) = fst (Country s) /\ snd (Country c) = snd (Country s))) /\
  (ScreenWidth s = 0 \/ ScreenWidth c = 0 \/ ScreenWidth c = ScreenWidth s) /\
  (ScreenHeight s = 0 \/ ScreenHeight c = 0 \/ ScreenHeight c = ScreenHeight s) /\
  (SDKVersion s = 0 \/ SDKVersion c = 0 \/ SDKVersion c <= SDKVersion s) /\
  (MinorVersion s = 0 \/ MinorVersion c = 0 \/ MinorVersion c = MinorVersion s).
Proof.
  split.
  - intros HM. unfold Match in HM. flatten_returns_in HM.
    repeat (step_if HM; [discriminate HM|]). clear HM.
    repeat split;
      match goal with
      | E : _ = false |- _ =>
          solve [ clear - E;
                  try match type of E with
                      | (if ?t then _ else _) = false => destruct t eqn:?
                      end;
                  bool_to_prop; lia ]
      end.
  - intros (H1 & H2 & H3 & H4 & H5 & H6 & H7 & H8).
    unfold Match. flatten_returns.
    reject_step H1. reject_step H2. reject_step H3. reject_step H4.
    reject_step H5. reject_step H6. reject_step H7. reject_step H8.
    reflexivity.
Qed.

(** X2.  [Match] is the conjunction of its eight per-axis tests: on mcc
    and mnc the candidate is unspecified or equal to the request; on
    language, country, screen width, screen height and minor version
    the request or the candidate is unspecified, or they are equal; on
    the SDK version the request or the candidate is unspecified, or the
    candidate's version is at most the requested one. *)
Theorem Match_true_iff (c s : ResTableConfig) :
  Match c s = true <->
  (Mcc c = 0 \/ Mcc c = Mcc s) /\
  (Mnc c = 0 \/ Mnc c = Mnc s) /\
  (fst (Language s) = 0 \/ fst (Language c) = 0
   \/ (fst (Language c) = fst (Language s) /\ snd (Language c) = snd (Language s))) /\
  (fst (Country s) = 0 \/ fst (Country c) = 0
   \/ (fst (Country c) = fst (Country s) /\ snd (Country c) = snd (Country s))) /\
  (ScreenWidth s = 0 \/ ScreenWidth c = 0 \/ ScreenWidth c = ScreenWidth s) /\
  (ScreenHeight s = 0 \/ ScreenHeight c = 0 \/ ScreenHeight c = ScreenHeight s) /\
  (SDKVersion s = 0 \/ SDKVersion c = 0 \/ SDKVersion c <= SDKVersion s) /\
  (MinorVersion s = 0 \/ MinorVersion c = 0 \/ MinorVersion c = MinorVersion s).
Proof. exact (Match_axes c s). Qed.

(** X3.  Every configuration matches itself. *)
Theorem Match_refl (c : ResTableConfig) : Match c c = true.
Proof. apply Match_axes. repeat split; lia. Qed.

(** ** More on the comparators *)

(** X4.  A configuration is better than itself exactly when it and the
    reference both specify an orientation. *)
Theorem IsBetterThan_self (c r : ResTableConfig) :
  IsBetterThan c c (Some r)
  = negb (Orientation r =? 0) && negb (Orientation c =? 0).
Proof.
  unfold IsBetterThan. flatten_returns.
  rewrite !Z.eqb_refl. cbn [negb andb orb]. rewrite !andb_false_r.
  destruct (Orientation r =? 0); destruct (Orientation c =? 0); reflexivity.
Qed.

(** X5.  Between two candidates that agree on mcc and mnc, the one that
    specifies a language beats the one that does not, when the reference
    specifies a language; the converse comparison is false. *)
Theorem IsBetterThan_language_specified (a b r : ResTableConfig) :
  Mcc a = Mcc b -> Mnc a = Mnc b ->
  fst (Language a) <> 0 -> fst (Language b) = 0 -> fst (Language r) <> 0 ->
  IsBetterThan a b (Some r) = true /\ IsBetterThan b a (Some r) = false.
Proof.
  intros Hmcc Hmnc Ha Hb Hr. unfold IsBetterThan. flatten_returns.
  rewrite Hmcc, Hmnc, Hb, !Z.eqb_refl. cbn [negb andb orb].
  rewrite !andb_false_r.
  apply Z.eqb_neq in Ha, Hr.
  rewrite Ha, Hr, (Z.eqb_sym 0), Ha. cbn [negb andb orb].
  rewrite !orb_true_r. cbn [negb andb orb]. split; reflexivity.
Qed.

(** X6.  Between two candidates that agree on every axis before the
    version, with a reference that leaves the orientation unspecified
    and specifies an SDK version, the candidate with the larger SDK
    version is the better one; the converse comparison is false. *)
Theorem IsBetterThan_larger_SDKVersion (a b r : ResTableConfig) :
  Mcc a = Mcc b -> Mnc a = Mnc b ->
  fst (Language a) = fst (Language b) -> fst (Country a) = fst (Country b) ->
  Orientation a = Orientation b -> Orientation r = 0 ->
  ScreenWidth a = ScreenWidth b -> ScreenHeight a = ScreenHeight b ->
  SDKVersion r <> 0 -> 0 <= SDKVersion b < SDKVersion a ->
  IsBetterThan a b (Some r) = true /\ IsBetterThan b a (Some r) = false.
Proof.
  intros Hmcc Hmnc Hl Hc Ho Hro Hw Hh Hr Hlt.
  unfold IsBetterThan. flatten_returns.
  rewrite Hmcc, Hmnc, Hl, Hc, Ho, Hro, Hw, Hh, !Z.eqb_refl.
  cbn [negb andb orb]. rewrite !andb_false_r. cbn [negb andb orb].
  apply Z.eqb_neq in Hr. rewrite Hr.
  assert ((SDKVersion a =? 0) = false) as -> by (apply Z.eqb_neq; lia).
  assert ((SDKVersion a =? SDKVersion b) = false) as -> by (apply Z.eqb_neq; lia).
  assert ((SDKVersion b =? SDKVersion a) = false) as -> by (apply Z.eqb_neq; lia).
  assert ((SDKVersion a >? SDKVersion b) = true) as ->
    by (rewrite Z.gtb_ltb; apply Z.ltb_lt; lia).
  assert ((SDKVersion b >? SDKVersion a) = false) as ->
    by (rewrite Z.gtb_ltb; apply Z.ltb_ge; lia).
  cbn [negb andb orb]. split; [reflexivity|].
  rewrite andb_true_r.
  destruct (negb (SDKVersion b =? 0) || negb (SDKVersion b =? 0)
            || negb (MinorVersion a =? 0) || negb (MinorVersion a =? 0));
    reflexivity.
Qed.

Ltac specific_true H pick next :=
  let E1 := fresh "E" in let E2 := fresh "E" in
  step_if_as H E1; [discriminate H|];
  (step_if_as H E2; [pick; clear - E1 E2; bool_to_prop; lia|]);
  clear E1 E2; next.

(** X7.  [IsMoreSpecificThan c o] is true only when, on some axis, [c]
    is unspecified and [o] is specified. *)
Theorem IsMoreSpecificThan_true (c o : ResTableConfig) :
  IsMoreSpecificThan c o = true ->
  (Mcc c = 0 /\ Mcc o <> 0 /\ Mnc o <> 0)
  \/ (Mnc c = 0 /\ Mnc o <> 0)
  \/ (fst (Language c) = 0 /\ fst (Language o) <> 0)
  \/ (fst (Country c) = 0 /\ fst (Country o) <> 0)
  \/ (Orientation c = 0 /\ Orientation o <> 0)
  \/ (Touchscreen c = 0 /\ Touchscreen o <> 0)
  \/ (ScreenWidth c = 0 /\ ScreenWidth o <> 0)
  \/ (ScreenHeight c = 0 /\ ScreenHeight o <> 0)
  \/ (SDKVersion c = 0 /\ SDKVersion o <> 0)
  \/ (MinorVersion c = 0 /\ MinorVersion o <> 0).
Proof.
  intros H. unfold IsMoreSpecificThan in H. flatten_returns_in H.
  do 9 (specific_true H ltac:(left) ltac:(right)).
  specific_true H ltac:(idtac) ltac:(idtac). discriminate H.
Qed.

(** ** Resource ids *)

(** X8.  A 32-bit resource id splits into a package id and a type id
    below 256 and an entry index below 65536, and is their
    concatenation. *)
Theorem ResId_decompose (id : ResId) :
  0 <= id < 2 ^ 32 ->
  0 <= ResId_Package id < 256
  /\ 0 <= ResId_Type id < 256
  /\ 0 <= ResId_Entry id < 65536
  /\ id = ResId_Package id * 2 ^ 24 + ResId_Type id * 2 ^ 16 + ResId_Entry id.
Proof.
  intros Hid. unfold ResId_Package, ResId_Type, ResId_Entry.
  change 255 with (Z.ones 8). change 65535 with (Z.ones 16).
  rewrite !Z.land_ones, !Z.shiftr_div_pow2 by lia.
  change (2 ^ 8) with 256. change (2 ^ 16) with 65536.
  change (2 ^ 24) with 16777216. change (2 ^ 32) with 4294967296 in Hid.
  pose proof (Z.div_mod id 65536 ltac:(lia)).
  pose proof (Z.mod_pos_bound id 65536 ltac:(lia)).
  pose proof (Z.div_mod (id / 65536) 256 ltac:(lia)).
  pose proof (Z.mod_pos_bound (id / 65536) 256 ltac:(lia)).
  assert (id / 16777216 = id / 65536 / 256) as ->
    by (rewrite Z.div_div by lia; reflexivity).
  assert (0 <= id / 65536 < 65536)
    by (split; [apply Z.div_pos; lia | apply Z.div_lt_upper_bound; lia]).
  assert (0 <= id / 65536 / 256 < 256)
    by (split; [apply Z.div_pos; lia | apply Z.div_lt_upper_bound; lia]).
  lia.
Qed.

(** ** Locale *)

Lemma fmt_c_not_empty v : fmt_c v <> EmptyString.
Proof. unfold fmt_c. destruct (v <? 128); discriminate. Qed.

(** X9.  [Locale] is the empty string exactly when the language is
    unspecified, whatever the country. *)
Theorem Locale_empty_iff (c : ResTableConfig) :
  Locale c = EmptyString <-> fst (Language c) = 0.
Proof.
  unfold Locale. destruct (Z.eqb_spec (fst (Language c)) 0) as [Hz|Hnz].
  - split; auto.
  - split; [|contradiction].
    pose proof (fmt_c_not_empty (fst (Language c))) as Hne.
    destruct (fmt_c (fst (Language c))); [contradiction|].
    destruct (fst (Country c) =? 0); discriminate.
Qed.

(** X10.  For a language and a country of ASCII letters, [Locale] is
    the two letters of the language, or language and country joined by
    a hyphen. *)
Theorem Locale_ascii (c : ResTableConfig) :
  0 < fst (Language c) < 128 -> 0 <= snd (Language c) < 128 ->
  0 <= fst (Country c) < 128 -> 0 <= snd (Country c) < 128 ->
  let ch v := Ascii.ascii_of_N (Z.to_N v) in
  Locale c =
  if fst (Country c) =? 0
  then String (ch (fst (Language c))) (String (ch (snd (Language c))) EmptyString)
  else String (ch (fst (Language c))) (String (ch (snd (Language c)))
         (String (ch 45) (String (ch (fst (Country c)))
            (String (ch (snd (Country c))) EmptyString)))).
Proof.
  intros Hl0 Hl1 Hc0 Hc1 ch. unfold Locale, fmt_c.
  assert ((fst (Language c) =? 0) = false) as -> by (apply Z.eqb_neq; lia).
  assert ((fst (Language c) <? 128) = true) as -> by (apply Z.ltb_lt; lia).
  assert ((snd (Language c) <? 128) = true) as -> by (apply Z.ltb_lt; lia).
  assert ((fst (Country c) <? 128) = true) as -> by (apply Z.ltb_lt; lia).
  assert ((snd (Country c) <? 128) = true) as -> by (apply Z.ltb_lt; lia).
  destruct (fst (Country c) =? 0); reflexivity.
Qed.

Lemma Locale_ascii_witness :
  Locale (mkResTableConfig 0 0 0 (102, 114) (67, 65) 0 0 0 0 0 0 0 0 0 0 0 0 0 0 0)
  = "fr-CA"%string.
Proof.
  rewrite Locale_ascii; cbn; try lia. reflexivity.
Defined.

(** ** More on the resolver *)

Section MoreResolverFacts.
Context `{Common}.

(** The scan with a non-nil configuration, from any [best]: the result
    is [best] or a variant of the list with the requested id that
    matches. *)
Lemma findType_loop_sound id settings (ts : list TableType) :
  forall best, exists r,
    findType_loop id (Some settings) ts best = Ok r
    /\ (r = best
        \/ exists t, r = Some t /\ In t ts /\ Type_Id (Header t) = id
                     /\ Match (Config (Header t)) settings = true).
Proof.
  induction ts as [|t ts IH]; intros best; cbn [findType_loop].
  - eauto.
  - destruct (Z.eqb_spec (Type_Id (Header t)) id) as [Hid|Hid]; cbn [negb].
    2: { destruct (IH best) as (r & Hr & [-> | (t' & -> & Hin & Hrest)]).
         - eauto.
         - exists (Some t'). split; [exact Hr|]. right. exists t'.
           split; [reflexivity|]. split; [right; exact Hin | exact Hrest]. }
    destruct (Match (Config (Header t)) settings) eqn:HM; cbn [negb].
    2: { destruct (IH best) as (r & Hr & [-> | (t' & -> & Hin & Hrest)]).
         - eauto.
         - exists (Some t'). split; [exact Hr|]. right. exists t'.
           split; [reflexivity|]. split; [right; exact Hin | exact Hrest]. }
    assert (forall best', best' = best \/ best' = Some t ->
            exists r, findType_loop id (Some settings) ts best' = Ok r
              /\ (r = best \/ exists t0, r = Some t0 /\ In t0 (t :: ts)
                    /\ Type_Id (Header t0) = id
                    /\ Match (Config (Header t0)) settings = true)) as Hstep.
    { intros best' Hb'. destruct (IH best') as (r & Hr & Hcase).
      exists r. split; [exact Hr|].
      destruct Hcase as [-> | (t' & -> & Hin & Hrest)].
      - destruct Hb' as [-> | ->]; [left; reflexivity|].
        right. exists t. split; [reflexivity|]. split; [left; reflexivity|].
        split; assumption.
      - right. exists t'. split; [reflexivity|].
        split; [right; exact Hin | exact Hrest]. }
    destruct best as [b|].
    + destruct (IsBetterThan (Config (Header t)) (Config (Header b))
                  (Some settings)); apply Hstep; auto.
    + apply Hstep; auto.
Qed.

(** X11.  With a non-nil configuration [findType] never panics, and the
    variant it returns is one of the package's variants, has the
    requested type id and matches the requested configuration. *)
Theorem findType_sound (p : TablePackage) (id : Z) (settings : ResTableConfig) :
  exists r, findType (Some p) id (Some settings) = Ok r
    /\ forall t, r = Some t ->
         In t (TableTypes p) /\ Type_Id (Header t) = id
         /\ Match (Config (Header t)) settings = true.
Proof.
  unfold findType.
  destruct (findType_loop_sound id settings (TableTypes p) None)
    as (r & Hr & Hcase).
  exists r. split; [exact Hr|]. intros t ->.
  destruct Hcase as [Hnone | (t' & [= <-] & Hrest)]; [discriminate | exact Hrest].
Qed.

(** Once a best variant is held, the scan ends with one. *)
Lemma findType_loop_Some id settings (ts : list TableType) :
  forall b, exists t, findType_loop id (Some settings) ts (Some b) = Ok (Some t).
Proof.
  induction ts as [|t ts IH]; intros b; cbn [findType_loop]; eauto.
  destruct (negb (Type_Id (Header t) =? id)); [apply IH|].
  destruct (negb (Match (Config (Header t)) settings)); [apply IH|].
  destruct (IsBetterThan (Config (Header t)) (Config (Header b)) (Some settings));
    apply IH.
Qed.

Lemma findType_loop_None_iff id settings (ts : list TableType) :
  findType_loop id (Some settings) ts None = Ok None <->
  forall t, In t ts -> Type_Id (Header t) = id ->
            Match (Config (Header t)) settings = false.
Proof.
  induction ts as [|t ts IH]; cbn [findType_loop].
  - split; [intros _ t [] | reflexivity].
  - destruct (Z.eqb_spec (Type_Id (Header t)) id) as [Hid|Hid]; cbn [negb].
    2: { rewrite IH. split.
         - intros Hall t' [<- | Hin] Hid'; [contradiction | auto].
         - intros Hall t' Hin. apply Hall. right. exact Hin. }
    destruct (Match (Config (Header t)) settings) eqn:HM; cbn [negb].
    + split.
      * intros Hr. destruct (findType_loop_Some id settings ts t) as (t' & Ht').
        rewrite Ht' in Hr. discriminate.
      * intros Hall. specialize (Hall t (or_introl eq_refl) Hid). congruence.
    + rewrite IH. split.
      * intros Hall t' [<- | Hin] Hid'; [exact HM | auto].
      * intros Hall t' Hin. apply Hall. right. exact Hin.
Qed.

(** X12.  With a non-nil configuration [findType] returns nil exactly
    when no variant of the package has the requested type id and
    matches the requested configuration. *)
Theorem findType_nil_iff (p : TablePackage) (id : Z) (settings : ResTableConfig) :
  findType (Some p) id (Some settings) = Ok None <->
  forall t, In t (TableTypes p) -> Type_Id (Header t) = id ->
            Match (Config (Header t)) settings = false.
Proof. apply findType_loop_None_iff. Qed.

Lemma findType_loop_filter id settings (ts : list TableType) :
  forall best,
  findType_loop id (Some settings) ts best
  = findType_loop id (Some settings)
      (List.filter (fun t => (Type_Id (Header t) =? id)
                             && Match (Config (Header t)) settings) ts) best.
Proof.
  induction ts as [|t ts IH]; intros best; cbn [findType_loop List.filter].
  - reflexivity.
  - destruct (Type_Id (Header t) =? id) eqn:Hid; cbn [negb andb].
    2: apply IH.
    destruct (Match (Config (Header t)) settings) eqn:HM; cbn [negb].
    2: apply IH.
    cbn [findType_loop]. rewrite Hid, HM. cbn [negb].
    destruct best as [b|]; [|apply IH].
    destruct (IsBetterThan (Config (Header t)) (Config (Header b)) (Some settings));
      apply IH.
Qed.

(** X13.  Variants of another type id and variants that do not match
    play no part: [findType] gives the same result on the package's list
    and on the list of its candidates alone. *)
Theorem findType_candidates_only (p : TablePackage) (id : Z)
    (settings : ResTableConfig) :
  findType (Some p) id (Some settings)
  = findType (Some (mkTablePackage (TP_Header p) (TypeStrings p) (KeyStrings p)
       (List.filter (fun t => (Type_Id (Header t) =? id)
                              && Match (Config (Header t)) settings)
                    (TableTypes p))))
      id (Some settings).
Proof. unfold findType. cbn [TableTypes]. apply findType_loop_filter. Qed.

Lemma findType_loop_nil_config id (ts : list TableType) :
  forall best,
  findType_loop id None ts best
  = if existsb (fun t => Type_Id (Header t) =? id) ts then Panic else Ok best.
Proof.
  induction ts as [|t ts IH]; intros best; cbn [findType_loop existsb].
  - reflexivity.
  - destruct (Type_Id (Header t) =? id); cbn [negb orb]; [reflexivity | apply IH].
Qed.

(** X14.  With a nil configuration [findType] panics as soon as a
    variant has the requested type id, and returns nil otherwise. *)
Theorem findType_nil_config (p : TablePackage) (id : Z) :
  findType (Some p) id None
  = if existsb (fun t => Type_Id (Header t) =? id) (TableTypes p)
    then Panic else Ok None.
Proof. apply findType_loop_nil_config. Qed.

(** X15.  [GetResource] with a nil configuration never returns. *)
Theorem GetResource_nil_config (f : TableFile) (id : ResId) :
  GetResource f id None = Panic.
Proof.
  unfold GetResource. destruct (findPackage f (ResId_Package id)) as [p|].
  - unfold findType. rewrite findType_loop_nil_config.
    destruct (existsb _ _); reflexivity.
  - reflexivity.
Qed.

(** X16.  When the package exists but none of its variants has the
    requested type id and matches, [GetResource] panics. *)
Theorem GetResource_unknown_type_panics (f : TableFile) (id : ResId)
    (settings : ResTableConfig) (p : TablePackage) :
  findPackage f (ResId_Package id) = Some p ->
  (forall t, In t (TableTypes p) -> Type_Id (Header t) = ResId_Type id ->
             Match (Config (Header t)) settings = false) ->
  GetResource f id (Some settings) = Panic.
Proof.
  intros Hp Hnone. unfold GetResource. rewrite Hp.
  apply findType_loop_None_iff in Hnone. unfold findType. rewrite Hnone.
  reflexivity.
Qed.

(** X17.  A value whose type tag is none of the five known tags is
    returned as its raw 32-bit payload, with a nil error. *)
Theorem GetResource_raw_payload (f : TableFile) (id : ResId)
    (config : option ResTableConfig) (p : TablePackage) (t : TableType)
    (e : TableEntry) (v : ResValue) :
  findPackage f (ResId_Package id) = Some p ->
  findType (Some p) (ResId_Type id) config = Ok (Some t) ->
  Entries t !! Z.to_nat (ResId_Entry id) = Some e ->
  Value e = Some v ->
  DataType v <> TYPE_NULL -> DataType v <> TYPE_STRING ->
  DataType v <> TYPE_INT_DEC -> DataType v <> TYPE_INT_HEX ->
  DataType v <> TYPE_INT_BOOLEAN ->
  GetResource f id config = Ok (VUint32 (Data v), None).
Proof.
  intros Hp Ht He Hv H1 H2 H3 H4 H5. unfold GetResource.
  rewrite Hp, Ht. cbn [mbind result_bind]. rewrite He, Hv.
  apply Z.eqb_neq in H1, H2, H3, H4, H5.
  rewrite H1, H2, H3, H4, H5. reflexivity.
Qed.

(** X18.  The resolver panics only for the reasons the code shows: when
    the package, a matching variant, the entry slot and its value exist
    and the value is not a string, [GetResource] returns, with a nil
    error. *)
Theorem GetResource_returns (f : TableFile) (id : ResId)
    (config : option ResTableConfig) (p : TablePackage) (t : TableType)
    (e : TableEntry) (v : ResValue) :
  findPackage f (ResId_Package id) = Some p ->
  findType (Some p) (ResId_Type id) config = Ok (Some t) ->
  Entries t !! Z.to_nat (ResId_Entry id) = Some e ->
  Value e = Some v ->
  DataType v = TYPE_NULL \/ DataType v <> TYPE_STRING ->
  exists val, GetResource f id config = Ok (val, None).
Proof.
  intros Hp Ht He Hv Htag. unfold GetResource.
  rewrite Hp, Ht. cbn [mbind result_bind]. rewrite He, Hv.
  destruct (DataType v =? TYPE_NULL) eqn:E0; [eauto|].
  destruct Htag as [Htag | Htag]; [apply Z.eqb_neq in E0; contradiction|].
  apply Z.eqb_neq in Htag. rewrite Htag.
  repeat match goal with
  | |- context [if ?c then _ else _] => destruct c
  end; eauto.
Qed.

End MoreResolverFacts.

(** ** More on the decoder *)

Section DecoderFacts.
Context `{Common}.

(** *** Type chunks *)

Lemma readEntries_length header (idxs : list Z) :
  forall sr i (entries : list TableEntry),
  length (readEntries header sr i idxs entries).1 = length entries.
Proof.
  induction idxs as [|index rest IH]; intros sr i entries; cbn [readEntries].
  - reflexivity.
  - destruct (index =? 4294967295); [apply IH|].
    destruct (binaryRead (Seek sr (uint32 (EntriesStart header + index)))
                sizeof_ResTableEntry) as [rk sr1].
    destruct (binaryRead sr1 sizeof_ResValue) as [rv sr2].
    rewrite IH, !length_alter. reflexivity.
Qed.

(** A slot whose index is not the sentinel gets both pointers, whether
    or not its two reads succeed. *)
Lemma readEntries_filled header (idxs : list Z) :
  forall sr i (entries : list TableEntry) (k : nat) index,
  idxs !! k = Some index -> index <> 0xFFFFFFFF ->
  (i + k < length entries)%nat ->
  exists key val e0,
    entries !! (i + k)%nat = Some e0
    /\ (readEntries header sr i idxs entries).1 !! (i + k)%nat
       = Some (mkTableEntry (Some key) (Some val) (Flags e0)).
Proof.
  induction idxs as [|index0 rest IH]; intros sr i entries k index Hk Hne Hlen.
  - discriminate.
  - destruct k as [|k]; cbn [lookup list_lookup] in Hk.
    + injection Hk as ->. cbn [readEntries].
      apply Z.eqb_neq in Hne. rewrite Hne.
      destruct (binaryRead (Seek sr (uint32 (EntriesStart header + index)))
                  sizeof_ResTableEntry) as [rk sr1].
      destruct (binaryRead sr1 sizeof_ResValue) as [rv sr2].
      rewrite Nat.add_0_r in *.
      rewrite readEntries_lookup_lt by lia.
      destruct (lookup_lt_is_Some_2 entries i Hlen) as [e0 He0].
      do 2 eexists. exists e0. split; [exact He0|].
      rewrite !list_lookup_alter_eq, He0. reflexivity.
    + cbn [readEntries].
      replace (i + S k)%nat with (S i + k)%nat in * by lia.
      destruct (index0 =? 4294967295).
      * apply (IH sr (S i) entries k index Hk Hne Hlen).
      * destruct (binaryRead (Seek sr (uint32 (EntriesStart header + index0)))
                    sizeof_ResTableEntry) as [rk sr1].
        destruct (binaryRead sr1 sizeof_ResValue) as [rv sr2].
        match goal with
        | |- context [readEntries header sr2 (S i) rest ?es] =>
            destruct (IH sr2 (S i) es k index Hk Hne
                        ltac:(rewrite !length_alter; exact Hlen))
              as (key & val & e0 & He0 & Hres)
        end.
        rewrite !list_lookup_alter_ne in He0 by lia.
        eauto.
Qed.

(** X19.  Once the header of a type chunk and its entry index table are
    read, [readTableType] returns a type, whatever the entry offsets
    point to: it has one slot per index, and a slot holds no key and no
    value exactly when its index is the sentinel 0xFFFFFFFF. *)
Theorem readTableType_slots sr header (idxs : list Z) sr' :
  readTypeHeader sr = Ok (header, idxs, sr') ->
  exists t,
    readTableType sr = Ok t /\ Header t = header
    /\ length (Entries t) = length idxs
    /\ length idxs = Z.to_nat (Type_EntryCount header)
    /\ forall (k : nat) index, idxs !! k = Some index ->
         exists e, Entries t !! k = Some e
           /\ (Value e = None <-> index = 0xFFFFFFFF)
           /\ (Key e = None <-> index = 0xFFFFFFFF).
Proof.
  intros Hh. pose proof (readTypeHeader_indexes _ _ _ _ Hh) as Hn.
  unfold readTableType. rewrite Hh. cbn [mbind result_bind].
  set (entries0 := replicate (Z.to_nat (Type_EntryCount header)) zeroTableEntry).
  pose proof (readEntries_length header idxs sr' 0 entries0) as Hlen.
  pose proof (readEntries_sentinel header idxs sr' 0 entries0) as Hsent.
  pose proof (readEntries_filled header idxs sr' 0 entries0) as Hfill.
  destruct (readEntries header sr' 0 idxs entries0) as [entries sr2].
  cbn [fst] in *. eexists. split; [reflexivity|]. cbn [Header Entries].
  assert (length entries0 = length idxs) as Hlen0
    by (unfold entries0; rewrite length_replicate; lia).
  split; [reflexivity|]. split; [lia|]. split; [exact Hn|].
  intros k index Hk. pose proof (lookup_lt_Some _ _ _ Hk) as Hklt.
  destruct (Z.eq_dec index 4294967295) as [-> | Hne].
  - exists zeroTableEntry. specialize (Hsent k Hk). cbn [Nat.add] in Hsent.
    rewrite Hsent. unfold entries0. rewrite lookup_replicate_2 by lia.
    cbn. tauto.
  - destruct (Hfill k index Hk Hne ltac:(cbn [Nat.add]; lia))
      as (key & val & e0 & _ & Hres).
    cbn [Nat.add] in Hres. rewrite Hres. eexists. split; [reflexivity|].
    cbn [Value Key]. split; split; intros; congruence.
Qed.

(** The slice of entries has the length [make] gave it. *)
Lemma readTableType_length sr t :
  readTableType sr = Ok t ->
  length (Entries t) = Z.to_nat (Type_EntryCount (Header t)).
Proof.
  unfold readTableType.
  destruct (readTypeHeader sr) as [[[header idxs] sr']|e|];
    cbn [mbind result_bind]; try discriminate.
  pose proof (readEntries_length header idxs sr' 0
                (replicate (Z.to_nat (Type_EntryCount header)) zeroTableEntry))
    as Hlen.
  destruct (readEntries header sr' 0 idxs _) as [entries sr2].
  intros [= <-]. cbn [fst Entries Header] in *.
  rewrite Hlen, length_replicate. reflexivity.
Qed.

(** X20.  A type [readTableType] returns has exactly as many entry
    slots as its header's entry count says. *)
Theorem readTableType_entry_count sr t :
  readTableType sr = Ok t ->
  length (Entries t) = Z.to_nat (Type_EntryCount (Header t)).
Proof. apply readTableType_length. Qed.

End DecoderFacts.

Section WalkInvariants.
Context `{Common}.

(** *** Package chunks *)

(** One chunk of a package leaves the types collected so far in place
    and adds at most one, the decoded type of a type chunk. *)
Lemma readPackageChunk_appends chunkHeader chunkReader (types types' : list TableType) :
  readPackageChunk chunkHeader chunkReader types = Ok types' ->
  types' = types
  \/ exists t, readTableType chunkReader = Ok t /\ types' = types ++ [t].
Proof.
  unfold readPackageChunk.
  destruct (Chunk_Type chunkHeader =? RES_TABLE_TYPE_TYPE).
  - destruct (readTableType chunkReader) as [t|e|]; cbn [mbind result_bind];
      try discriminate.
    intros [= <-]. right. eauto.
  - destruct (Chunk_Type chunkHeader =? RES_TABLE_TYPE_SPEC_TYPE).
    + destruct (readTableTypeSpec chunkReader); cbn [mbind result_bind];
        try discriminate.
      intros [= <-]. left. reflexivity.
    + intros [= <-]. left. reflexivity.
Qed.

Lemma readTablePackage_loop_appends fuel :
  forall sr size offset (types types' : list TableType),
  readTablePackage_loop fuel sr size offset types = Some (Ok types') ->
  exists new,
    types' = types ++ new
    /\ forall t, In t new ->
         length (Entries t) = Z.to_nat (Type_EntryCount (Header t)).
Proof.
  induction fuel as [|fuel IH]; intros sr size offset types types';
    cbn [readTablePackage_loop]; destruct (offset <? size).
  - discriminate.
  - intros [= <-]. exists []. rewrite app_nil_r. split; [reflexivity | intros t []].
  - destruct (binaryRead (Seek sr offset) sizeof_ResChunkHeader) as [[bs|e|] sr1];
      try discriminate.
    destruct (readPackageChunk _ _ types) as [types1|e|] eqn:Hchunk;
      try discriminate.
    intros Hloop. apply IH in Hloop. destruct Hloop as (new & -> & Hnew).
    apply readPackageChunk_appends in Hchunk.
    destruct Hchunk as [-> | (t & Ht & ->)].
    + eauto.
    + exists (t :: new). rewrite <- app_assoc. split; [reflexivity|].
      intros t' [<- | Hin]; [apply (readTableType_length _ _ Ht) | auto].
  - intros [= <-]. exists []. rewrite app_nil_r. split; [reflexivity | intros t []].
Qed.

(** What [readTablePackage] guarantees of the package it returns. *)
Lemma readTablePackage_decoded fuel sr p :
  readTablePackage fuel sr = Some (Ok p) ->
  TypeStrings p <> None /\ KeyStrings p <> None
  /\ forall t, In t (TableTypes p) ->
       length (Entries t) = Z.to_nat (Type_EntryCount (Header t)).
Proof.
  unfold readTablePackage.
  destruct (binaryRead sr sizeof_ResTablePackage) as [[bs|e|] sr1];
    try discriminate.
  destruct (readStringPool _) as [typeStrings|e|]; try discriminate.
  destruct (readStringPool _) as [keyStrings|e|]; try discriminate.
  destruct (readTablePackage_loop _ _ _ _ _) as [[types|e|]|] eqn:Hloop;
    cbn [mbind result_bind]; try discriminate.
  intros [= <-]. cbn [TypeStrings KeyStrings TableTypes].
  split; [discriminate|]. split; [discriminate|].
  apply readTablePackage_loop_appends in Hloop.
  destruct Hloop as (new & -> & Hnew). exact Hnew.
Qed.

(** X21.  A package [readTablePackage] returns has both of its string
    pools, and each of its types has exactly as many entry slots as its
    header's entry count says. *)
Theorem readTablePackage_invariant fuel sr p :
  readTablePackage fuel sr = Some (Ok p) ->
  TypeStrings p <> None /\ KeyStrings p <> None
  /\ forall t, In t (TableTypes p) ->
       length (Entries t) = Z.to_nat (Type_EntryCount (Header t)).
Proof. apply readTablePackage_decoded. Qed.

(** *** Root chunks *)

(** X22.  A chunk that is neither a string pool nor a package leaves
    the table as it was, whatever its bytes. *)
Theorem readChunk_unknown_type fuel f r offset f' chunkHeader :
  readChunk fuel f r offset = Some (Ok (f', chunkHeader)) ->
  Chunk_Type chunkHeader <> RES_STRING_POOL_TYPE ->
  Chunk_Type chunkHeader <> RES_TABLE_PACKAGE_TYPE ->
  f' = f.
Proof.
  unfold readChunk.
  destruct (binaryRead _ sizeof_ResChunkHeader) as [[bs|e|] sr1];
    try discriminate.
  destruct (Z.eqb_spec (Chunk_Type (decodeChunkHeader bs 0)) RES_STRING_POOL_TYPE)
    as [Hpool|Hpool].
  { destruct (readStringPool _); try discriminate.
    intros [= <- <-] Hne. contradiction. }
  destruct (Z.eqb_spec (Chunk_Type (decodeChunkHeader bs 0)) RES_TABLE_PACKAGE_TYPE)
    as [Hpkg|Hpkg].
  { destruct (readTablePackage fuel _) as [[p|e|]|]; try discriminate.
    intros [= <- <-] _ Hne. contradiction. }
  intros [= <- <-] _ _. reflexivity.
Qed.

(** X23.  [readChunk] returns an error only for a chunk header it
    cannot read or for a string pool that fails to decode: a package
    chunk never makes it return an error (a package that fails to
    decode makes it panic). *)
Theorem readChunk_error fuel f r offset e :
  readChunk fuel f r offset = Some (Err e) ->
  let sr := Seek (NewSectionReader r offset (maxint64 - offset)) 0 in
  (binaryRead sr sizeof_ResChunkHeader).1 = Err e
  \/ exists bs,
       (binaryRead sr sizeof_ResChunkHeader).1 = Ok bs
       /\ Chunk_Type (decodeChunkHeader bs 0) = RES_STRING_POOL_TYPE
       /\ readStringPool (Seek (binaryRead sr sizeof_ResChunkHeader).2 0) = Err e.
Proof.
  intros Hr. unfold readChunk in Hr. cbv zeta in *.
  destruct (binaryRead _ sizeof_ResChunkHeader) as [[bs|e0|] sr1];
    cbn [fst snd]; try discriminate.
  - right. exists bs. split; [reflexivity|].
    destruct (Z.eqb_spec (Chunk_Type (decodeChunkHeader bs 0)) RES_STRING_POOL_TYPE)
      as [Hpool|Hpool].
    + split; [exact Hpool|].
      destruct (readStringPool _) as [pool|e1|]; try discriminate.
      injection Hr as ->. reflexivity.
    + destruct (Chunk_Type (decodeChunkHeader bs 0) =? RES_TABLE_PACKAGE_TYPE);
        [|discriminate].
      destruct (readTablePackage fuel _) as [[p|e1|]|]; discriminate.
  - left. injection Hr as ->. reflexivity.
Qed.

Lemma readChunk_decodedTable fuel f r offset f' chunkHeader :
  decodedTable f ->
  readChunk fuel f r offset = Some (Ok (f', chunkHeader)) ->
  decodedTable f'.
Proof.
  intros Hinv. unfold readChunk.
  destruct (binaryRead _ sizeof_ResChunkHeader) as [[bs|e|] sr1];
    try discriminate.
  destruct (Chunk_Type (decodeChunkHeader bs 0) =? RES_STRING_POOL_TYPE).
  { destruct (readStringPool _); try discriminate.
    intros [= <- <-]. exact Hinv. }
  destruct (Chunk_Type (decodeChunkHeader bs 0) =? RES_TABLE_PACKAGE_TYPE).
  2: { intros [= <- <-]. exact Hinv. }
  destruct (readTablePackage fuel _) as [[p|e|]|] eqn:Hp; try discriminate.
  intros [= <- <-]. intros k p'. cbn [tablePackages].
  destruct (decide (Package_Id (TP_Header p) = k)) as [<- | Hne].
  - rewrite lookup_insert_eq. intros [= <-].
    split; [reflexivity|]. apply (readTablePackage_decoded _ _ _ Hp).
  - rewrite lookup_insert_ne by exact Hne. apply Hinv.
Qed.

Lemma NewTableFile_loop_decodedTable fuel fuelPackage sr size :
  forall f offset f',
  decodedTable f ->
  NewTableFile_loop fuel fuelPackage f sr size offset = Some (Ok f') ->
  decodedTable f'.
Proof.
  induction fuel as [|fuel IH]; intros f offset f' Hinv;
    cbn [NewTableFile_loop]; destruct (offset <? size).
  - discriminate.
  - intros [= <-]. exact Hinv.
  - destruct (readChunk fuelPackage f _ offset) as [[[f1 chunkHeader]|e|]|] eqn:Hc;
      try discriminate.
    apply IH. eapply readChunk_decodedTable; eauto.
  - intros [= <-]. exact Hinv.
Qed.

(** X24.  In every table [NewTableFile] returns, each package is stored
    under the id its header declares, has both of its string pools, and
    each of its types has exactly as many entry slots as its header's
    entry count says. *)
Theorem NewTableFile_invariant fuel fuelPackage r f (k : Z) (p : TablePackage) :
  NewTableFile fuel fuelPackage r = Some (Ok f) ->
  tablePackages f !! k = Some p ->
  Package_Id (TP_Header p) = k
  /\ TypeStrings p <> None /\ KeyStrings p <> None
  /\ forall t, In t (TableTypes p) ->
       length (Entries t) = Z.to_nat (Type_EntryCount (Header t)).
Proof.
  unfold NewTableFile. destruct (readTableHeader r) as [header sr].
  intros Hloop. apply NewTableFile_loop_decodedTable in Hloop.
  - apply Hloop.
  - intros k' p'. cbn [tablePackages]. rewrite lookup_empty. discriminate.
Qed.

(** The walk is deterministic: if it never ends from a state it visits,
    it never ends from the start. *)
Lemma visits_diverges fuelPackage sr size f0 offset0 f offset :
  visits fuelPackage sr size f0 offset0 f offset ->
  (forall fuel, NewTableFile_loop fuel fuelPackage f sr size offset = None) ->
  forall fuel, NewTableFile_loop fuel fuelPackage f0 sr size offset0 = None.
Proof.
  induction 1 as [|f offset f' chunkHeader Hv IH Hlt Hread]; [auto|].
  intros Hnext. apply IH. intros [|fuel]; cbn [NewTableFile_loop];
    destruct (Z.ltb_spec offset size); try lia; [reflexivity|].
  rewrite Hread. apply Hnext.
Qed.

(** X25.  If the root walk visits a chunk that declares the total size
    zero and leaves the table as it was, [NewTableFile] never returns:
    no amount of fuel gives a result. *)
Theorem NewTableFile_diverges (r : ReaderAt) (fuelPackage : nat) f offset
    chunkHeader :
  let header := TableHeader_Header (readTableHeader r).1 in
  let sr := (readTableHeader r).2 in
  visits fuelPackage sr (Chunk_Size header) (mkTableFile None ∅)
         (Chunk_HeaderSize header) f offset ->
  offset < Chunk_Size header ->
  readChunk fuelPackage f (SectionReader_ReadAt sr) offset
    = Some (Ok (f, chunkHeader)) ->
  Chunk_Size chunkHeader = 0 ->
  forall fuel, NewTableFile fuel fuelPackage r = None.
Proof.
  intros header sr Hv Hlt Hread Hzero fuel. unfold NewTableFile.
  subst header sr. destruct (readTableHeader r) as [hdr sr]. cbn [fst snd] in *.
  eapply visits_diverges; [exact Hv|].
  eapply NewTableFile_loop_stuck; eauto.
Qed.

End WalkInvariants.

(** *** Short sources *)

Lemma bytesReaderAt_length (s : list byte) off n :
  (length (bytesReaderAt s off n) <= length s)%nat.
Proof.
  unfold bytesReaderAt.
  destruct ((off <? 0) || (Z.of_nat (length s) <=? off)); cbn [length]; [lia|].
  rewrite length_take, length_drop. lia.
Qed.

(** Reading more bytes than the source holds fails, with one of the two
    errors of [io.ReadFull]. *)
Lemma binaryRead_short (s : list byte) (sr : SectionReader) (n : nat) :
  sr_r sr = bytesReaderAt s -> (length s < n)%nat ->
  exists e, (binaryRead sr n).1 = Err e /\ (e = EOF \/ e = ErrUnexpectedEOF).
Proof.
  intros Hr Hlen. unfold binaryRead. destruct n as [|n]; [lia|].
  unfold SectionReader_Read.
  destruct (sr_limit sr <=? sr_off sr).
  - cbn. eauto.
  - rewrite Hr.
    match goal with
    | |- context [bytesReaderAt s ?off ?k] =>
        pose proof (bytesReaderAt_length s off k) as Hb;
        destruct (bytesReaderAt s off k) as [|b bs] eqn:Hbs
    end.
    + cbn. eauto.
    + destruct (Nat.eqb_spec (length (b :: bs)) (S n)) as [Heq|Hne]; [lia|].
      cbn [fst]. eauto.
Qed.

Section ShortSources.
Context `{Common}.


(** X27.  Over a source that holds fewer than the 12 bytes of the table
    header, [NewTableFile] ignores the failed read and returns the empty
    table, with a nil error and without any fuel. *)
Theorem NewTableFile_short_source (s : list byte) fuel fuelPackage :
  (length s < 12)%nat ->
  NewTableFile fuel fuelPackage (bytesReaderAt s) = Some (Ok (mkTableFile None ∅)).
Proof.
  intros Hlen. unfold NewTableFile, readTableHeader.
  destruct (binaryRead_short s (NewSectionReader (bytesReaderAt s) 0 maxint64)
              sizeof_ResTableHeader eq_refl Hlen) as (e & He & _).
  destruct (binaryRead _ sizeof_ResTableHeader) as [rd sr1]. cbn [fst] in He.
  subst rd. cbn [TableHeader_Header Chunk_Size Chunk_HeaderSize zeroChunkHeader].
  destruct fuel; reflexivity.
Qed.

(** X28.  In a table [NewTableFile] returned, resolving an id whose
    entry index is not below the entry count of the selected type
    panics. *)
Theorem GetResource_entry_count fuel fuelPackage r (f : TableFile) (id : ResId)
    (config : option ResTableConfig) (p : TablePackage) (t : TableType) :
  NewTableFile fuel fuelPackage r = Some (Ok f) ->
  findPackage f (ResId_Package id) = Some p ->
  findType (Some p) (ResId_Type id) config = Ok (Some t) ->
  Type_EntryCount (Header t) <= ResId_Entry id ->
  GetResource f id config = Panic.
Proof.
  intros Hf Hp Ht Hcount.
  destruct config as [settings|].
  2: { unfold findType in Ht. rewrite findType_loop_nil_config in Ht.
       destruct (existsb _ _); discriminate. }
  destruct (findType_loop_sound (ResId_Type id) settings (TableTypes p) None)
    as (r0 & Hr0 & Hcase).
  unfold findType in Ht. rewrite Ht in Hr0. injection Hr0 as <-.
  destruct Hcase as [Hnone | (t' & [= <-] & Hin & _)]; [discriminate|].
  assert (decodedTable f) as Hinv.
  { unfold NewTableFile in Hf. destruct (readTableHeader r) as [header sr].
    apply NewTableFile_loop_decodedTable in Hf; [exact Hf|].
    intros k' p'. cbn [tablePackages]. rewrite lookup_empty. discriminate. }
  destruct (Hinv _ _ Hp) as (_ & _ & _ & Hlen).
  specialize (Hlen t Hin).
  unfold GetResource, findType. rewrite Hp, Ht. cbn [mbind result_bind].
  rewrite lookup_ge_None_2; [reflexivity|].
  rewrite Hlen. lia.
Qed.

End ShortSources.

(** ** Witnesses *)

(** X5, witness: the language "fr" against the unqualified variant. *)
Lemma IsBetterThan_language_specified_witness :
  IsBetterThan (withLanguage 102 114) zeroConfig (Some (withLanguage 102 114)) = true
  /\ IsBetterThan zeroConfig (withLanguage 102 114) (Some (withLanguage 102 114)) = false.
Proof.
  apply IsBetterThan_language_specified; cbn; (reflexivity || discriminate).
Defined.

(** X6, witness: SDK version 30 against 21, for a request for 33. *)
Lemma IsBetterThan_larger_SDKVersion_witness :
  IsBetterThan (withSDKVersion 30) (withSDKVersion 21) (Some (withSDKVersion 33)) = true
  /\ IsBetterThan (withSDKVersion 21) (withSDKVersion 30) (Some (withSDKVersion 33)) = false.
Proof.
  apply IsBetterThan_larger_SDKVersion; cbn; try reflexivity; try discriminate; lia.
Defined.

(** X7, witness: the unqualified configuration against the language "fr". *)
Lemma IsMoreSpecificThan_true_witness :
  let c := zeroConfig in
  let o := withLanguage 102 114 in
  (Mcc c = 0 /\ Mcc o <> 0 /\ Mnc o <> 0)
  \/ (Mnc c = 0 /\ Mnc o <> 0)
  \/ (fst (Language c) = 0 /\ fst (Language o) <> 0)
  \/ (fst (Country c) = 0 /\ fst (Country o) <> 0)
  \/ (Orientation c = 0 /\ Orientation o <> 0)
  \/ (Touchscreen c = 0 /\ Touchscreen o <> 0)
  \/ (ScreenWidth c = 0 /\ ScreenWidth o <> 0)
  \/ (ScreenHeight c = 0 /\ ScreenHeight o <> 0)
  \/ (SDKVersion c = 0 /\ SDKVersion o <> 0)
  \/ (MinorVersion c = 0 /\ MinorVersion o <> 0).
Proof.
  exact (IsMoreSpecificThan_true zeroConfig (withLanguage 102 114) eq_refl).
Defined.

(** X8, witness: the id 0x7f010005. *)
Lemma ResId_decompose_witness :
  0 <= ResId_Package 0x7f010005 < 256
  /\ 0 <= ResId_Type 0x7f010005 < 256
  /\ 0 <= ResId_Entry 0x7f010005 < 65536
  /\ 0x7f010005 = ResId_Package 0x7f010005 * 2 ^ 24
                  + ResId_Type 0x7f010005 * 2 ^ 16 + ResId_Entry 0x7f010005.
Proof.
  apply ResId_decompose. split; [discriminate | reflexivity].
Defined.

(** X16, witness: [exampleTable] has no variant of type id 2. *)
Lemma GetResource_unknown_type_panics_witness :
  GetResource exampleTable 0x01020000 (Some zeroConfig) = Panic.
Proof.
  apply (GetResource_unknown_type_panics exampleTable 0x01020000 zeroConfig
           (mkTablePackage examplePackageHeader None None [exampleType])).
  - vm_compute. reflexivity.
  - intros t [<- | []] Hid. vm_compute in Hid. discriminate Hid.
Defined.

(** X17, witness: a colour value (tag 0x1c). *)
Lemma GetResource_raw_payload_witness :
  GetResource (tableOf [valueType 1 zeroConfig (mkResValue 8 0 0x1c 0xff00ff00)])
              0x01010000 (Some zeroConfig)
  = Ok (VUint32 0xff00ff00, None).
Proof.
  apply (GetResource_raw_payload _ _ _
           (mkTablePackage examplePackageHeader None None
              [valueType 1 zeroConfig (mkResValue 8 0 0x1c 0xff00ff00)])
           (valueType 1 zeroConfig (mkResValue 8 0 0x1c 0xff00ff00))
           (mkTableEntry (Some zeroResTableEntry)
              (Some (mkResValue 8 0 0x1c 0xff00ff00)) 0)
           (mkResValue 8 0 0x1c 0xff00ff00));
    try (vm_compute; reflexivity); cbn; discriminate.
Defined.

(** X18, witness: a boolean value (tag 0x12). *)
Lemma GetResource_returns_witness :
  exists val,
    GetResource (tableOf [valueType 1 zeroConfig (mkResValue 8 0 0x12 1)])
                0x01010000 (Some zeroConfig)
    = Ok (val, None).
Proof.
  apply (GetResource_returns _ _ _
           (mkTablePackage examplePackageHeader None None
              [valueType 1 zeroConfig (mkResValue 8 0 0x12 1)])
           (valueType 1 zeroConfig (mkResValue 8 0 0x12 1))
           (mkTableEntry (Some zeroResTableEntry) (Some (mkResValue 8 0 0x12 1)) 0)
           (mkResValue 8 0 0x12 1));
    try (vm_compute; reflexivity). right. cbn. discriminate.
Defined.

(** X19, witness: the header and index table of [exampleTypeChunk]. *)
Lemma readTableType_slots_witness :
  exists t, readTableType exampleTypeReader = Ok t
    /\ length (Entries t) = 2%nat.
Proof.
  assert (exists header idxs sr',
            readTypeHeader exampleTypeReader = Ok (header, idxs, sr')
            /\ length idxs = 2%nat) as (header & idxs & sr' & Hh & Hn)
    by (do 3 eexists; split; vm_compute; reflexivity).
  destruct (readTableType_slots _ _ _ _ Hh) as (t & Ht & _ & Hlen & _ & _).
  exists t. split; [exact Ht | congruence].
Defined.

(** X20, witness. *)
Lemma readTableType_entry_count_witness :
  length (Entries exampleType) = Z.to_nat (Type_EntryCount (Header exampleType)).
Proof.
  apply (readTableType_entry_count exampleTypeReader). vm_compute. reflexivity.
Defined.

(** X21, witness: the package chunk of [examplePackageTable]. *)
Lemma readTablePackage_invariant_witness :
  exists p,
    @readTablePackage stubCommon 2
      (NewSectionReader (bytesReaderAt examplePackageTable) 20 360) = Some (Ok p)
    /\ @TypeStrings stubCommon p <> None
    /\ length (@TableTypes stubCommon p) = 1%nat.
Proof.
  assert (exists p,
            @readTablePackage stubCommon 2
              (NewSectionReader (bytesReaderAt examplePackageTable) 20 360)
            = Some (Ok p)
            /\ length (@TableTypes stubCommon p) = 1%nat) as (p & Hp & Hn)
    by (eexists; split; vm_compute; reflexivity).
  exists p. split; [exact Hp|]. split; [|exact Hn].
  apply (@readTablePackage_invariant stubCommon _ _ _ Hp).
Defined.

(** X22, witness: the chunk of type 0 of [oneChunkTable 8]. *)
Lemma readChunk_unknown_type_witness :
  let sr := (readTableHeader (bytesReaderAt (oneChunkTable 8))).2 in
  readChunk 0 emptyTable (SectionReader_ReadAt sr) 12
  = Some (Ok (emptyTable, mkResChunkHeader 0 8 8))
  /\ emptyTable = emptyTable.
Proof.
  intros sr.
  assert (readChunk 0 emptyTable (SectionReader_ReadAt sr) 12
          = Some (Ok (emptyTable, mkResChunkHeader 0 8 8))) as Hr
    by (vm_compute; reflexivity).
  split; [exact Hr|].
  apply (readChunk_unknown_type _ _ _ _ _ _ Hr); cbn; discriminate.
Defined.

(** X23, witness: no chunk header can be read from the empty source. *)
Lemma readChunk_error_witness :
  readChunk 0 emptyTable (bytesReaderAt []) 0 = Some (Err EOF)
  /\ (binaryRead (Seek (NewSectionReader (bytesReaderAt []) 0 (maxint64 - 0)) 0)
        sizeof_ResChunkHeader).1 = Err EOF.
Proof.
  assert (readChunk 0 emptyTable (bytesReaderAt []) 0 = Some (Err EOF)) as Hr
    by (vm_compute; reflexivity).
  split; [exact Hr|].
  destruct (readChunk_error _ _ _ _ _ Hr) as [He | (bs & Hbs & _)];
    [exact He | vm_compute in Hbs; discriminate Hbs].
Defined.

(** X24, witness: the table decoded from [examplePackageTable]. *)
Lemma NewTableFile_invariant_witness :
  exists f p,
    @NewTableFile stubCommon 3 2 (bytesReaderAt examplePackageTable) = Some (Ok f)
    /\ @tablePackages stubCommon f !! 1 = Some p
    /\ Package_Id (@TP_Header stubCommon p) = 1.
Proof.
  assert (exists f p,
            @NewTableFile stubCommon 3 2 (bytesReaderAt examplePackageTable)
            = Some (Ok f)
            /\ @tablePackages stubCommon f !! 1 = Some p) as (f & p & Hf & Hp)
    by (do 2 eexists; split; vm_compute; reflexivity).
  exists f, p. split; [exact Hf|]. split; [exact Hp|].
  apply (@NewTableFile_invariant stubCommon _ _ _ _ _ _ Hf Hp).
Defined.

(** X25, witness: the chunk of [oneChunkTable 0]. *)
Lemma NewTableFile_diverges_witness :
  NewTableFile 1000 0 (bytesReaderAt (oneChunkTable 0)) = None.
Proof.
  apply (NewTableFile_diverges (bytesReaderAt (oneChunkTable 0)) 0
           emptyTable 12 (mkResChunkHeader 0 8 0)).
  - apply visits_start.
  - vm_compute. reflexivity.
  - vm_compute. reflexivity.
  - reflexivity.
Defined.


(** X27, witness: the empty source. *)
Lemma NewTableFile_short_source_witness :
  NewTableFile 0 0 (bytesReaderAt []) = Some (Ok (mkTableFile None ∅)).
Proof.
  apply NewTableFile_short_source. cbn. lia.
Defined.

(** X28, witness: entry index 2 of the type of two slots decoded from
    [examplePackageTable]. *)
Lemma GetResource_entry_count_witness :
  exists f,
    @NewTableFile stubCommon 3 2 (bytesReaderAt examplePackageTable) = Some (Ok f)
    /\ @GetResource stubCommon f 0x01010000 (Some zeroConfig)
       = Ok (VString "hello", None)
    /\ @GetResource stubCommon f 0x01010002 (Some zeroConfig) = Panic.
Proof.
  assert (exists f,
            @NewTableFile stubCommon 3 2 (bytesReaderAt examplePackageTable)
            = Some (Ok f)) as (f & Hf)
    by (eexists; vm_compute; reflexivity).
  pose proof Hf as Hf'. vm_compute in Hf'. injection Hf' as Hf'.
  exists f. split; [exact Hf|]. split.
  - rewrite <- Hf'. vm_compute. reflexivity.
  - assert (exists p, @findPackage stubCommon f (ResId_Package 0x01010002) = Some p)
      as (p & Hp) by (rewrite <- Hf'; eexists; vm_compute; reflexivity).
    pose proof Hp as Hp'. rewrite <- Hf' in Hp'. vm_compute in Hp'.
    injection Hp' as Hp'.
    assert (exists t, @findType stubCommon (Some p) (ResId_Type 0x01010002)
                        (Some zeroConfig) = Ok (Some t)
                      /\ Type_EntryCount (Header t) = 2)
      as (t & Ht & Hcount)
      by (rewrite <- Hp'; eexists; split; vm_compute; reflexivity).
    apply (@GetResource_entry_count stubCommon _ _ _ _ _ _ _ _ Hf Hp Ht).
    rewrite Hcount. vm_compute. discriminate.
Defined.
